(** * South East London population projections: the Streamlit page

    A shallow embedding of [streamlit_app.py]: the workbook loader
    [load_data], the column selection driven by the two sidebar widgets, and
    the Plotly figure the page shows.

    The third-party calls are modelled by the part of their behaviour the
    script relies on:
    - [pd.ExcelFile] / [pd.read_excel]: a workbook is the ordered list of its
      sheets, each already parsed into a table.  The header row gives the
      column labels: a text cell is kept as a text, a number or a date cell
      as a number or a date;
    - [DataFrame]: column labels and rows of cells; a cell is a number, a
      text or a blank (NaN).  Numbers are rationals: the script only compares
      them, and every finite integer or float a sheet holds is one;
    - [px.line] in wide form: one trace per requested column; [add_hline]
      with its default of leaving a figure without traces alone;
    - Streamlit: the page is the list of elements written so far, and the
      run ends normally, by [st.stop()], or by an uncaught exception. *)

From Stdlib Require Import ZArith QArith Qminmax.
From stdpp Require Import base list strings gmap.

Local Open Scope Z_scope.

(** ** Exceptions and the error monad *)

(** The text of a [TypeError] or an [AttributeError] is whatever the library
    that raised it wrote; the script never reads it, and it is not kept. *)
Inductive exn : Type :=
| OSError (msg : string)
| ValueError (msg : string)
| KeyError (key : string)
| TypeError
| AttributeError.

#[global] Instance exn_eq_dec : EqDecision exn.
Proof. solve_decision. Defined.

(** [str(e)], as interpolated into the loader's error message (the loader
    raises nothing but the first two kinds). *)
Definition exn_str (e : exn) : string :=
  match e with
  | OSError msg => msg
  | ValueError msg => msg
  | KeyError key => "'" +:+ key +:+ "'"
  | TypeError => ""
  | AttributeError => ""
  end.

Inductive result (A : Type) : Type :=
| Ok (a : A)
| Raise (e : exn).
Arguments Ok {A} a.
Arguments Raise {A} e.

#[global] Instance result_ret : MRet result := λ A a, Ok a.
#[global] Instance result_bind : MBind result := λ A B f m,
  match m with
  | Ok a => f a
  | Raise e => Raise e
  end.
#[global] Instance result_fmap : FMap result := λ A B f m,
  match m with
  | Ok a => Ok (f a)
  | Raise e => Raise e
  end.

(** ** Python strings *)

(** [s.endswith(suffix)]. *)
Definition endswith (s suffix : string) : bool :=
  let n := String.length s in
  let m := String.length suffix in
  (m <=? n)%nat && String.eqb (String.substring (n - m) m s) suffix.

(** ** Tables *)

Inductive cell : Type :=
| CNum (q : Q)
| CStr (s : string)
| CNaN.

#[global] Instance Q_eq_dec : EqDecision Q.
Proof. solve_decision. Defined.

#[global] Instance cell_eq_dec : EqDecision cell.
Proof. solve_decision. Defined.

(** A column label, as [pd.read_excel] takes it from the header row. *)
Inductive label : Type :=
| LStr (s : string)
| LNum (q : Q)
| LDate (stamp : string).

#[global] Instance label_eq_dec : EqDecision label.
Proof. solve_decision. Defined.

Record DataFrame : Type := mkDataFrame {
  columns : list label;
  rows : list (list cell)
}.

#[global] Instance DataFrame_eq_dec : EqDecision DataFrame.
Proof. solve_decision. Defined.

(** [df.empty]: some axis has length zero. *)
Definition empty (df : DataFrame) : bool :=
  (length (columns df) =? 0)%nat || (length (rows df) =? 0)%nat.

(** Position of the label [key], a text, in [df.columns]. *)
Fixpoint get_loc (labels : list label) (key : string) : result nat :=
  match labels with
  | [] => Raise (KeyError key)
  | label :: labels' =>
      if decide (label = LStr key) then Ok 0%nat
      else i ← get_loc labels' key; Ok (S i)
  end.

Definition take_positions (positions : list nat) (row : list cell) : list cell :=
  (λ i, default CNaN (row !! i)) <$> positions.

(** [df[[c1, ..., cn]]]: the listed columns, in the listed order. *)
Definition getitem_list (df : DataFrame) (keys : list string) : result DataFrame :=
  positions ← mapM (get_loc (columns df)) keys;
  Ok {| columns := LStr <$> keys; rows := take_positions positions <$> rows df |}.

(** [df[c]]: one column, as a series of cells. *)
Definition getitem (df : DataFrame) (key : string) : result (list cell) :=
  i ← get_loc (columns df) key;
  Ok ((λ row, default CNaN (row !! i)) <$> rows df).

(** ** Series reductions *)

Definition is_str (c : cell) : bool :=
  match c with CStr _ => true | _ => false end.

Definition is_num (c : cell) : bool :=
  match c with CNum _ => true | _ => false end.

Definition num_of (c : cell) : option Q :=
  match c with CNum q => Some q | _ => None end.

Definition str_of (c : cell) : option string :=
  match c with CStr s => Some s | _ => None end.

(** The kind of a column's dtype: numeric when it holds only numbers and
    blanks, [str] when it holds texts (and blanks) and no number, [object]
    when it holds numbers and texts. *)
Inductive dtype_kind : Type := Number | Str | Object.

#[global] Instance dtype_kind_eq_dec : EqDecision dtype_kind.
Proof. solve_decision. Defined.

Definition dtype (s : list cell) : dtype_kind :=
  if existsb is_str s then (if existsb is_num s then Object else Str) else Number.

Definition str_min (a b : string) : string := if String.leb a b then a else b.
Definition str_max (a b : string) : string := if String.leb a b then b else a.

(** [Series.min()] / [Series.max()].  Blanks are skipped (and the result is
    blank when nothing is left); numbers are compared as numbers and texts as
    texts, and a column holding both cannot be reduced. *)
Definition reduce_series (fq : Q → Q → Q) (fs : string → string → string)
    (s : list cell) : result cell :=
  match dtype s with
  | Number =>
      match omap num_of s with
      | [] => Ok CNaN
      | q :: qs => Ok (CNum (foldl fq q qs))
      end
  | Str =>
      match omap str_of s with
      | [] => Ok CNaN
      | t :: ts => Ok (CStr (foldl fs t ts))
      end
  | Object => Raise TypeError
  end.

Definition series_min : list cell → result cell := reduce_series Qmin str_min.
Definition series_max : list cell → result cell := reduce_series Qmax str_max.

(** ** Workbooks and the loader *)

(** A Python [dict] keeps its keys in insertion order; assigning to a key
    already present replaces the value in place. *)
Abbreviation dict V := (list (string * V)).

Fixpoint dict_setitem {V} (d : dict V) (k : string) (v : V) : dict V :=
  match d with
  | [] => [(k, v)]
  | (k', v') :: d' =>
      if decide (k' = k) then (k, v) :: d' else (k', v') :: dict_setitem d' k v
  end.

Fixpoint dict_getitem {V} (d : dict V) (k : string) : result V :=
  match d with
  | [] => Raise (KeyError k)
  | (k', v') :: d' => if decide (k' = k) then Ok v' else dict_getitem d' k
  end.

Definition dict_keys {V} (d : dict V) : list string := d.*1.

(** The sheets of a workbook in workbook order, each with the table
    [pd.read_excel] parses from it. *)
Abbreviation workbook := (list (string * DataFrame)).

(** What is found at a path. *)
Inductive file : Type :=
| Unreadable (cause : string)
| Malformed (cause : string)
| Excel (xls : workbook).

Definition filesystem : Type := string → file.

(** [pd.ExcelFile(path)]. *)
Definition ExcelFile (fs : filesystem) (path : string) : result workbook :=
  match fs path with
  | Unreadable cause => Raise (OSError cause)
  | Malformed cause => Raise (ValueError cause)
  | Excel xls => Ok xls
  end.

Definition sheet_names (xls : workbook) : list string := xls.*1.

(** [pd.read_excel(xls, sheet_name)]. *)
Fixpoint read_excel (xls : workbook) (sheet_name : string) : result DataFrame :=
  match xls with
  | [] => Raise (ValueError ("Worksheet named '" +:+ sheet_name +:+ "' not found"))
  | (name, df) :: xls' =>
      if decide (name = sheet_name) then Ok df else read_excel xls' sheet_name
  end.

(** The body of the [for sheet_name in xls.sheet_names] loop, folded over the
    names still to visit. *)
Fixpoint load_sheets (xls : workbook) (names : list string)
    (data : dict DataFrame) : result (dict DataFrame) :=
  match names with
  | [] => Ok data
  | sheet_name :: names' =>
      df ← read_excel xls sheet_name;
      if negb (empty df) && bool_decide (LStr "Year" ∈ columns df)
      then load_sheets xls names' (dict_setitem data sheet_name df)
      else load_sheets xls names' data
  end.

(** The body of [load_data].  [@st.cache_data] replays the returned value for
    a path already loaded and does not change it. *)
Definition load_data (fs : filesystem) (excel_file : string)
    : result (dict DataFrame) :=
  xls ← ExcelFile fs excel_file;
  load_sheets xls (sheet_names xls) [].

(** ** Column selection *)

Definition count_columns : list string :=
  ["0-24"; "25-64"; "65-79"; "80+"; "All ages"].

Record view : Type := mkView {
  plot_columns : list string;
  y_label : string;
  title_suffix : string;
  zero_line : bool
}.

(** [[col for col in selected_df.columns if col.endswith("_pct")]]: every
    label is asked [endswith], which only a text has. *)
Fixpoint pct_columns (labels : list label) : result (list string) :=
  match labels with
  | [] => Ok []
  | LStr col :: labels' =>
      rest ← pct_columns labels';
      Ok (if endswith col "_pct" then col :: rest else rest)
  | _ :: _ => Raise AttributeError
  end.

(** The [if view_type == "Percent change": ... else: ...] block. *)
Definition select_view (view_type : string) (selected_df : DataFrame) : result view :=
  if decide (view_type = "Percent change") then
    plot_columns ← pct_columns (columns selected_df);
    Ok {| plot_columns := plot_columns;
          y_label := "Percent change (%)";
          title_suffix := " – Percent Change";
          zero_line := true |}
  else
    Ok {| plot_columns := filter (λ col, LStr col ∈ columns selected_df) count_columns;
          y_label := "Population (persons)";
          title_suffix := " – Population Counts";
          zero_line := false |}.

(** ** Figures *)

Record Scatter : Type := mkScatter {
  trace_name : string;
  trace_x : list cell;
  trace_y : list cell;
  line_color : option string;
  line_width : option Z
}.

Record HLine : Type := mkHLine {
  hline_y : Z;
  hline_dash : string;
  hline_color : string
}.

Record Figure : Type := mkFigure {
  traces : list Scatter;
  title_text : string;
  xaxis_title : string;
  yaxis_title : string;
  legend_title : option string;
  xaxis_range : option (cell * cell);
  shapes : list HLine
}.

Definition color_map : gmap string string :=
  list_to_map [
    ("0-24", "#F5B041");
    ("25-64", "#5DADE2");
    ("65-79", "#58D68D");
    ("80+", "#E74C3C");
    ("All ages", "#34495E");
    ("0-24_pct", "#F5B041");
    ("25-64_pct", "#5DADE2");
    ("65-79_pct", "#58D68D");
    ("80+_pct", "#E74C3C");
    ("All ages_pct", "#34495E")
  ].

(** A column reference of a [px] call; a name that is no column of the data
    frame is refused. *)
Definition px_column (data_frame : DataFrame) (name : string) : result (list cell) :=
  match getitem data_frame name with
  | Ok s => Ok s
  | Raise _ =>
      Raise (ValueError ("Value of '" +:+ name +:+ "' is not the name of a column in 'data_frame'"))
  end.

Definition same_dtype (series : list (list cell)) : bool :=
  match series with
  | [] => true
  | s :: series' => forallb (λ s', bool_decide (dtype s' = dtype s)) series'
  end.

(** [px.line(data_frame, x=x, y=[...], labels=..., title=...,
    color_discrete_map=...)], wide form: the [y] columns must be of one
    kind, and each becomes a line named after its column.  A line whose name
    is a key of [color_discrete_map] takes that colour; [None] stands for a
    colour left to Plotly's default sequence.  The legend is titled once
    there is a line to list. *)
Definition px_line (data_frame : DataFrame) (x : string) (y : list string)
    (labels : gmap string string) (title : string)
    (color_discrete_map : gmap string string) : result Figure :=
  xs ← px_column data_frame x;
  ys ← mapM (px_column data_frame) y;
  if same_dtype ys then
    Ok {| traces :=
            (λ '(name, values),
               {| trace_name := name; trace_x := xs; trace_y := values;
                  line_color := color_discrete_map !! name;
                  line_width := None |}) <$> zip y ys;
          title_text := title;
          xaxis_title := default x (labels !! x);
          yaxis_title := default "value" (labels !! "value");
          legend_title :=
            match y with
            | [] => None
            | _ :: _ => Some (default "variable" (labels !! "variable"))
            end;
          xaxis_range := None;
          shapes := [] |}
  else
    Raise (ValueError "Plotly Express cannot process wide-form data with columns of different type.").

(** [fig.update_traces(line=dict(width=w))]. *)
Definition update_traces_line_width (w : Z) (fig : Figure) : Figure :=
  {| traces :=
       (λ t, {| trace_name := trace_name t; trace_x := trace_x t;
                trace_y := trace_y t; line_color := line_color t;
                line_width := Some w |}) <$> traces fig;
     title_text := title_text fig;
     xaxis_title := xaxis_title fig;
     yaxis_title := yaxis_title fig;
     legend_title := legend_title fig;
     xaxis_range := xaxis_range fig;
     shapes := shapes fig |}.

(** [fig.update_xaxes(range=[lo, hi])]. *)
Definition update_xaxes_range (lo hi : cell) (fig : Figure) : Figure :=
  {| traces := traces fig;
     title_text := title_text fig;
     xaxis_title := xaxis_title fig;
     yaxis_title := yaxis_title fig;
     legend_title := legend_title fig;
     xaxis_range := Some (lo, hi);
     shapes := shapes fig |}.

(** [fig.add_hline(y=y, line_dash=dash, line_color=color)], with its
    default [exclude_empty_subplots=True]: a figure without a trace is left
    as it is. *)
Definition add_hline (y : Z) (dash color : string) (fig : Figure) : Figure :=
  match traces fig with
  | [] => fig
  | _ :: _ =>
      {| traces := traces fig;
         title_text := title_text fig;
         xaxis_title := xaxis_title fig;
         yaxis_title := yaxis_title fig;
         legend_title := legend_title fig;
         xaxis_range := xaxis_range fig;
         shapes := shapes fig ++ [ {| hline_y := y; hline_dash := dash; hline_color := color |} ] |}
  end.

(** ** The page *)

(** What the user has entered in the sidebar: the path, and the positions
    picked in the area list and in the view toggle. *)
Record sidebar : Type := mkSidebar {
  excel_file_path : string;
  area_choice : nat;
  view_choice : nat
}.

(** A single-choice widget returns the option at the picked position; a
    position that is not on the list falls back to the first option, and an
    empty list gives [None]. *)
Definition choose (options : list string) (choice : nat) : option string :=
  match options !! choice with
  | Some o => Some o
  | None => head options
  end.

Definition selectbox : list string → nat → option string := choose.

Definition view_options : list string := ["Percent change"; "Counts"].

Definition radio (options : list string) (choice : nat) : string :=
  default "" (choose options choice).

Inductive element : Type :=
| st_title (body : string)
| st_error (body : string)
| st_plotly_chart (fig : Figure)
| st_write (body : string).

Inductive status : Type :=
| Finished
| Stopped
| Crashed (e : exn).

Record page : Type := mkPage {
  elements : list element;
  outcome : status
}.

Definition page_title : string :=
  "South East London Population Projections (2025‑2035)".

Definition instructions : string :=
  "
    **Instructions:**
    - Use the sidebar to select a borough or the combined South East London ICB.
    - Choose whether to display raw counts or percent change relative to 2025.
    - The data is sourced from the GLA 2022‑based population projections for the housing‑led central fertility variant.
    - Lines have been thickened and colours are now clearly distinct for each series.
    ".

(** Lines 79 to 82 of the script: the area picked in the sidebar and its
    table. *)
Definition selected_sheet (data_dict : dict DataFrame) (ui : sidebar)
    : result (string * DataFrame) :=
  let area_names := dict_keys data_dict in
  selected_area ← from_option Ok (Raise (KeyError "None")) (selectbox area_names (area_choice ui));
  selected_df ← dict_getitem data_dict selected_area;
  Ok (selected_area, selected_df).

(** Lines 79 to 144 of the script: from the loaded dataset and the sidebar
    to the finished figure. *)
Definition make_figure (data_dict : dict DataFrame) (ui : sidebar) : result Figure :=
  '(selected_area, selected_df) ← selected_sheet data_dict ui;
  let view_type := radio view_options (view_choice ui) in
  v ← select_view view_type selected_df;
  plot_df ← getitem_list selected_df ("Year" :: plot_columns v);
  fig ← px_line plot_df "Year" (plot_columns v)
          (list_to_map [("value", y_label v); ("variable", "Age group")])
          (selected_area +:+ title_suffix v) color_map;
  let fig := update_traces_line_width 3 fig in
  year ← getitem plot_df "Year";
  lo ← series_min year;
  hi ← series_max year;
  let fig := update_xaxes_range lo hi fig in
  let fig := if zero_line v then add_hline 0 "dash" "gray" fig else fig in
  Ok fig.

(** One run of the script. *)
Definition streamlit_app (fs : filesystem) (ui : sidebar) : page :=
  let shown := [st_title page_title] in
  match load_data fs (excel_file_path ui) with
  | Raise e =>
      {| elements := shown ++ [st_error ("Failed to load data from " +:+ excel_file_path ui +:+ ": " +:+ exn_str e)];
         outcome := Stopped |}
  | Ok data_dict =>
      if bool_decide (data_dict = []) then
        {| elements := shown ++ [st_error "No valid worksheets were found in the provided Excel file."];
           outcome := Stopped |}
      else
        match make_figure data_dict ui with
        | Raise e => {| elements := shown; outcome := Crashed e |}
        | Ok fig =>
            {| elements := shown ++ [st_plotly_chart fig; st_write instructions];
               outcome := Finished |}
        end
  end.

(** The charts drawn on a page. *)
Definition charts (p : page) : list Figure :=
  omap (λ el, match el with st_plotly_chart fig => Some fig | _ => None end) (elements p).

(** ** The loader's cache and reruns *)

(** What the script does with the outcome of the load: lines 69 to 147. *)
Definition show_page (loaded : result (dict DataFrame)) (ui : sidebar) : page :=
  let shown := [st_title page_title] in
  match loaded with
  | Raise e =>
      {| elements := shown ++ [st_error ("Failed to load data from " +:+ excel_file_path ui +:+ ": " +:+ exn_str e)];
         outcome := Stopped |}
  | Ok data_dict =>
      if bool_decide (data_dict = []) then
        {| elements := shown ++ [st_error "No valid worksheets were found in the provided Excel file."];
           outcome := Stopped |}
      else
        match make_figure data_dict ui with
        | Raise e => {| elements := shown; outcome := Crashed e |}
        | Ok fig =>
            {| elements := shown ++ [st_plotly_chart fig; st_write instructions];
               outcome := Finished |}
        end
  end.

(** [@st.cache_data] on [load_data]: returned values are kept by argument.
    A call whose path has an entry gets that entry and the body does not
    run; otherwise the body runs, and its value is stored unless it raised. *)
Definition load_data_cached (cache : gmap string (dict DataFrame))
    (fs : filesystem) (excel_file : string)
    : result (dict DataFrame) * gmap string (dict DataFrame) :=
  match cache !! excel_file with
  | Some data => (Ok data, cache)
  | None =>
      match load_data fs excel_file with
      | Ok data => (Ok data, <[excel_file := data]> cache)
      | Raise e => (Raise e, cache)
      end
  end.

(** One run of the script against the cache left by the runs before it. *)
Definition streamlit_run (cache : gmap string (dict DataFrame))
    (fs : filesystem) (ui : sidebar) : page * gmap string (dict DataFrame) :=
  let '(loaded, cache') := load_data_cached cache fs (excel_file_path ui) in
  (show_page loaded ui, cache').

(** A session: the script reruns on every interaction, each time with the
    files as they are then and the sidebar as the user left it. *)
Fixpoint session (cache : gmap string (dict DataFrame))
    (interactions : list (filesystem * sidebar)) : list page :=
  match interactions with
  | [] => []
  | (fs, ui) :: interactions' =>
      let '(p, cache') := streamlit_run cache fs ui in
      p :: session cache' interactions'
  end.

(** The cache holds, for each of its paths, what the files would load to. *)
Definition coherent (cache : gmap string (dict DataFrame)) (fs : filesystem) : Prop :=
  ∀ path data, cache !! path = Some data → load_data fs path = Ok data.

(** ** Vocabulary of the specification *)

(** [selection P l sel]: [sel] is [l] with the entries that do not satisfy
    [P] struck out, the others keeping their places. *)
Inductive selection (P : string → Prop) : list string → list string → Prop :=
| selection_nil : selection P [] []
| selection_keep c l sel : P c → selection P l sel → selection P (c :: l) (c :: sel)
| selection_skip c l sel : ¬ P c → selection P l sel → selection P (c :: l) sel.

(** A column name that ends with the percent-change suffix. *)
Definition pct_suffixed (col : string) : Prop := ∃ stem, col = stem +:+ "_pct".

(** The colour rule in the words of the specification: strip the percent
    suffix, then look the base name up. *)
Definition removesuffix (s suffix : string) : string :=
  if endswith s suffix
  then String.substring 0 (String.length s - String.length suffix) s
  else s.

Definition color_by_stem (col : string) : option string :=
  color_map !! removesuffix col "_pct".

(** A valid sheet has at least one row and a column labelled Year. *)
Definition qualifies (df : DataFrame) : Prop :=
  rows df ≠ [] ∧ LStr "Year" ∈ columns df.

#[global] Instance qualifies_dec df : Decision (qualifies df).
Proof. unfold qualifies. apply _. Defined.

(** The dashed reference line at height zero. *)
Definition zero_baseline : HLine :=
  {| hline_y := 0; hline_dash := "dash"; hline_color := "gray" |}.

(** A column whose minimum and maximum exist: one that does not hold both a
    number and a text. *)
Definition orderable (s : list cell) : Prop := dtype s ≠ Object.

(** A sheet whose column labels are all texts, and the texts. *)
Definition text_labels (df : DataFrame) (names : list string) : Prop :=
  columns df = LStr <$> names.

(** ** Sample workbooks *)

Definition sample_table : DataFrame :=
  {| columns := LStr <$> ["Year"; "0-24"; "25-64"; "65-79"; "80+"; "All ages";
                 "0-24_pct"; "25-64_pct"; "65-79_pct"; "80+_pct"; "All ages_pct"];
     rows := [[CNum 2025; CNum 100; CNum 200; CNum 50; CNum 10; CNum 360;
               CNum 0; CNum 0; CNum 0; CNum 0; CNum 0];
              [CNum 2030; CNum 95; CNum 210; CNum 55; CNum 12; CNum 372;
               CNum (-5); CNum 5; CNum 10; CNum 20; CNum 3.3];
              [CNum 2035; CNum 90; CNum 220; CNum 60; CNum 15; CNum 385;
               CNum (-10); CNum 10; CNum 20; CNum 50; CNum 6.9]] |}.

(** The same columns in another physical order. *)
Definition shuffled_table : DataFrame :=
  {| columns := LStr <$> ["All ages"; "80+"; "Year"; "25-64"; "0-24"; "65-79"];
     rows := [[CNum 360; CNum 10; CNum 2025; CNum 200; CNum 100; CNum 50]] |}.

Definition ordered_table : DataFrame :=
  {| columns := LStr <$> ["Year"; "0-24"; "25-64"; "65-79"; "80+"; "All ages"];
     rows := [[CNum 2025; CNum 100; CNum 200; CNum 50; CNum 10; CNum 360]] |}.

(** A header row and nothing below it. *)
Definition headers_only : DataFrame :=
  {| columns := LStr <$> ["Year"; "0-24"]; rows := [] |}.

(** Data, but no Year column. *)
Definition no_year : DataFrame :=
  {| columns := LStr <$> ["0-24"; "0-24_pct"]; rows := [[CNum 100; CNum 0]] |}.

(** A Year column holding texts. *)
Definition text_years : DataFrame :=
  {| columns := LStr <$> ["Year"; "0-24"];
     rows := [[CStr "2025/26"; CNum 100]; [CStr "2026/27"; CNum 101]] |}.

(** A Year column and none of the expected series. *)
Definition year_only : DataFrame :=
  {| columns := LStr <$> ["Year"; "Source"];
     rows := [[CNum 2025; CStr "GLA"]; [CNum 2035; CStr "GLA"]] |}.

Definition sample_fs : filesystem := λ path,
  if decide (path = "population_projection_se_london_icb.xlsx") then
    Excel [("Bromley", sample_table); ("Notes", no_year); ("Blank", headers_only);
           ("Lewisham", sample_table); ("SE London ICB", sample_table)]
  else if decide (path = "notes.xlsx") then Excel [("Notes", no_year)]
  else if decide (path = "financial_years.xlsx") then
    Excel [("Bromley", text_years); ("Notes", no_year)]
  else if decide (path = "bare.xlsx") then Excel [("Bare", year_only)]
  else if decide (path = "report.txt") then
    Malformed "Excel file format cannot be determined, you must specify an engine manually."
  else Unreadable ("[Errno 2] No such file or directory: '" +:+ path +:+ "'").

Definition default_ui : sidebar :=
  {| excel_file_path := "population_projection_se_london_icb.xlsx";
     area_choice := 0; view_choice := 0 |}.

(** ** Sample workbooks with irregular cells *)

(** One percent-change column of numbers, one of texts. *)
Definition mixed_kinds : DataFrame :=
  {| columns := LStr <$> ["Year"; "0-24_pct"; "25-64_pct"];
     rows := [[CNum 2025; CNum 0; CStr "suppressed"];
              [CNum 2030; CNum 1.5; CStr "suppressed"]] |}.

(** A column headed by the number 2030 beside the text headers. *)
Definition numeric_header : DataFrame :=
  {| columns := [LStr "Year"; LStr "0-24_pct"; LNum 2030];
     rows := [[CNum 2025; CNum 0; CNum 95]; [CNum 2030; CNum (-5); CNum 95]] |}.

(** None of the expected series, and a Year column with a text among the
    numbers. *)
Definition bare_mixed_years : DataFrame :=
  {| columns := LStr <$> ["Year"; "Source"];
     rows := [[CNum 2025; CStr "GLA"]; [CStr "2030 (est.)"; CStr "GLA"]] |}.

(** A Year column with a text among the numbers. *)
Definition mixed_years : DataFrame :=
  {| columns := LStr <$> ["Year"; "0-24"];
     rows := [[CNum 2025; CNum 100]; [CStr "2030 (est.)"; CNum 101]] |}.

(** A Year column with a blank cell. *)
Definition blank_years : DataFrame :=
  {| columns := LStr <$> ["Year"; "0-24"];
     rows := [[CNum 2030; CNum 100]; [CNaN; CNum 101]; [CNum 2025; CNum 99]] |}.

Definition odd_fs : filesystem := λ path,
  if decide (path = "mixed_kinds.xlsx") then Excel [("Bromley", mixed_kinds)]
  else if decide (path = "mixed_years.xlsx") then Excel [("Bromley", mixed_years)]
  else if decide (path = "blank_years.xlsx") then Excel [("Bromley", blank_years)]
  else if decide (path = "numeric_header.xlsx") then Excel [("Bromley", numeric_header)]
  else if decide (path = "bare_mixed_years.xlsx") then Excel [("Bare", bare_mixed_years)]
  else Unreadable ("[Errno 2] No such file or directory: '" +:+ path +:+ "'").

(** A disk from which every file is gone. *)
Definition no_files : filesystem := λ path,
  Unreadable ("[Errno 2] No such file or directory: '" +:+ path +:+ "'").

(** * Properties *)

(** ** Texts *)

Section strings.
Implicit Types s t p : string.

Lemma app_cons a s t : String a s +:+ t = String a (s +:+ t).
Proof. reflexivity. Qed.

Lemma length_app s t :
  String.length (s +:+ t) = (String.length s + String.length t)%nat.
Proof. induction s as [|a s IH]; [done|]. rewrite app_cons. simpl. by rewrite IH. Qed.

Lemma substring_all s : String.substring 0 (String.length s) s = s.
Proof. induction s as [|a s IH]; [done|]. simpl. by rewrite IH. Qed.

Lemma substring_skip p t :
  String.substring (String.length p) (String.length t) (p +:+ t) = t.
Proof.
  induction p as [|a p IH]; [apply substring_all|].
  rewrite app_cons. simpl. exact IH.
Qed.

Lemma substring_split s k :
  (k ≤ String.length s)%nat →
  s = String.substring 0 k s +:+ String.substring k (String.length s - k) s.
Proof.
  revert k. induction s as [|a s IH]; intros [|k] Hk; simpl in *; try lia.
  - done.
  - by rewrite substring_all.
  - rewrite app_cons. f_equal. apply IH. lia.
Qed.

(** [endswith] holds exactly of the texts that are some stem followed by the
    suffix. *)
Lemma endswith_spec s suffix :
  endswith s suffix = true ↔ ∃ stem, s = stem +:+ suffix.
Proof.
  unfold endswith. rewrite andb_true_iff, Nat.leb_le, String.eqb_eq. split.
  - intros [Hlen Hsub].
    exists (String.substring 0 (String.length s - String.length suffix) s).
    rewrite <- Hsub at 2.
    rewrite (substring_split s (String.length s - String.length suffix)) at 1 by lia.
    do 2 f_equal. lia.
  - intros [stem ->]. rewrite length_app. split; [lia|].
    replace (String.length stem + String.length suffix - String.length suffix)%nat
      with (String.length stem) by lia.
    apply substring_skip.
Qed.
End strings.

(** ** Selections *)

Section selection.
Context (P Q : string → Prop) `{!∀ c, Decision (Q c)}.
Hypothesis PQ : ∀ c, P c ↔ Q c.

Lemma selection_filter l : selection P l (filter Q l).
Proof.
  induction l as [|c l IH]; [constructor|].
  rewrite filter_cons. destruct (decide (Q c)) as [Hc|Hc].
  - apply selection_keep; [by apply PQ | done].
  - apply selection_skip; [by rewrite PQ | done].
Qed.

Lemma selection_unique l sel : selection P l sel → sel = filter Q l.
Proof.
  induction 1 as [|c l sel Hc _ IH|c l sel Hc _ IH].
  - done.
  - rewrite filter_cons_True by (by apply PQ). by f_equal.
  - rewrite filter_cons_False by (by rewrite <- PQ). done.
Qed.

Lemma selection_iff l sel : selection P l sel ↔ sel = filter Q l.
Proof. split; [apply selection_unique | intros ->; apply selection_filter]. Qed.
End selection.

Lemma endswith_pct col : endswith col "_pct" ↔ pct_suffixed col.
Proof. rewrite Is_true_true. apply endswith_spec. Qed.

(** ** The error monad *)

Lemma bind_Ok_inv {A B} (f : A → result B) (m : result A) (b : B) :
  m ≫= f = Ok b → ∃ a, m = Ok a ∧ f a = Ok b.
Proof. destruct m as [a|e]; [eauto | discriminate]. Qed.

Ltac inv_bind H :=
  let a := fresh "a" in
  let Ha := fresh "H" a in
  apply bind_Ok_inv in H as (a & Ha & H).

Ltac inv_ret H := cbv [mret result_ret] in H; simplify_eq.

(** ** The two views *)

Lemma pct_columns_text (names : list string) :
  pct_columns (LStr <$> names) = Ok (filter (λ col, endswith col "_pct") names).
Proof.
  induction names as [|col names IH]; [done|].
  cbn [fmap list_fmap pct_columns].
  fold (@fmap list _ _ _ LStr names). rewrite IH. cbn [mbind result_bind].
  rewrite filter_cons. by destruct (decide (endswith col "_pct")) as [H|H]; destruct (endswith col "_pct").
Qed.

Lemma pct_columns_Ok labels cols :
  pct_columns labels = Ok cols → ∃ names, labels = LStr <$> names.
Proof.
  revert cols. induction labels as [|[col| |] labels IH]; intros cols H; simpl in H; try done.
  - by exists [].
  - inv_bind H. destruct (IH _ Ha) as [names ->]. by exists (col :: names).
Qed.


Lemma select_view_percent df :
  select_view "Percent change" df
  = (plot_columns ← pct_columns (columns df);
     Ok {| plot_columns := plot_columns;
           y_label := "Percent change (%)";
           title_suffix := " – Percent Change";
           zero_line := true |}).
Proof. reflexivity. Qed.

Lemma select_view_other view_type df :
  view_type ≠ "Percent change" →
  select_view view_type df
  = Ok {| plot_columns := filter (λ col, LStr col ∈ columns df) count_columns;
          y_label := "Population (persons)";
          title_suffix := " – Population Counts";
          zero_line := false |}.
Proof. intros Hview. unfold select_view. by rewrite decide_False. Qed.

Lemma select_view_counts df :
  select_view "Counts" df
  = Ok {| plot_columns := filter (λ col, LStr col ∈ columns df) count_columns;
          y_label := "Population (persons)";
          title_suffix := " – Population Counts";
          zero_line := false |}.
Proof. reflexivity. Qed.

(** The fields a view carries besides its plot columns. *)
Lemma select_view_fields view_type df v :
  select_view view_type df = Ok v →
  (view_type = "Percent change" →
     zero_line v = true ∧ y_label v = "Percent change (%)"
     ∧ title_suffix v = " – Percent Change")
  ∧ (view_type ≠ "Percent change" →
       zero_line v = false ∧ y_label v = "Population (persons)"
       ∧ title_suffix v = " – Population Counts").
Proof.
  unfold select_view. destruct (decide _) as [Hview|Hview]; intros H.
  - inv_bind H. inv_ret H. by split.
  - inv_ret H. by split.
Qed.

Lemma select_view_subset view_type df v :
  select_view view_type df = Ok v →
  ∀ col, col ∈ plot_columns v → LStr col ∈ columns df.
Proof.
  unfold select_view. destruct (decide _) as [Hview|Hview]; intros H col Hcol.
  - inv_bind H. inv_ret H. simpl in Hcol.
    destruct (pct_columns_Ok _ _ Ha) as [names Hnames].
    rewrite Hnames, pct_columns_text in Ha. simplify_eq.
    apply list_elem_of_filter in Hcol as [_ Hcol].
    rewrite Hnames. by apply list_elem_of_fmap_2.
  - inv_ret H. simpl in Hcol. by apply list_elem_of_filter in Hcol as [? _].
Qed.

(** The plot columns are computed in counts view, and in percent-change view
    on a sheet whose labels are all texts. *)
Lemma select_view_total view_type df :
  view_type ≠ "Percent change" ∨ (∃ names, text_labels df names) →
  ∃ v, select_view view_type df = Ok v.
Proof.
  intros [Hview|[names Hnames]].
  - rewrite (select_view_other _ _ Hview). by eexists.
  - destruct (decide (view_type = "Percent change")) as [->|Hview].
    + unfold text_labels in Hnames.
      rewrite select_view_percent, Hnames, pct_columns_text. by eexists.
    + rewrite (select_view_other _ _ Hview). by eexists.
Qed.

(** C3 as stated fails: a sheet the loader accepts can have a header that is
    not a text, and in percent-change view the selection then raises instead
    of returning the columns ending with ["_pct"]. *)
Lemma percent_change_numeric_header :
  load_data odd_fs "numeric_header.xlsx" = Ok [("Bromley", numeric_header)]
  ∧ columns numeric_header = [LStr "Year"; LStr "0-24_pct"; LNum 2030]
  ∧ select_view "Percent change" numeric_header = Raise AttributeError
  ∧ streamlit_app odd_fs
      {| excel_file_path := "numeric_header.xlsx"; area_choice := 0; view_choice := 0 |}
    = {| elements := [st_title page_title]; outcome := Crashed AttributeError |}.
Proof. split_and!; vm_compute; reflexivity. Qed.

(** C3, amended. For a sheet whose column labels are all texts, in
    percent-change view the plot columns are exactly the columns whose name
    ends with ["_pct"], in the sheet's own column order: a list is that
    selection if and only if it is the computed list. *)
Theorem percent_change_plot_columns (df : DataFrame) (names : list string) :
  text_labels df names →
  ∃ v,
    select_view "Percent change" df = Ok v
    ∧ ∀ sel, selection pct_suffixed names sel ↔ sel = plot_columns v.
Proof.
  unfold text_labels. intros Hnames.
  rewrite select_view_percent, Hnames, pct_columns_text. cbn [mbind result_bind].
  eexists. split; [reflexivity|]. intros sel. simpl.
  apply selection_iff. intros col. symmetry. apply endswith_pct.
Qed.

Lemma percent_change_plot_columns_witness :
  ∃ v,
    select_view "Percent change" sample_table = Ok v
    ∧ plot_columns v = ["0-24_pct"; "25-64_pct"; "65-79_pct"; "80+_pct"; "All ages_pct"].
Proof.
  destruct (percent_change_plot_columns sample_table
              ["Year"; "0-24"; "25-64"; "65-79"; "80+"; "All ages";
               "0-24_pct"; "25-64_pct"; "65-79_pct"; "80+_pct"; "All ages_pct"])
    as (v & Hview & Hsel).
  - reflexivity.
  - exists v. split; [exact Hview|].
    vm_compute in Hview. injection Hview as <-. reflexivity.
Defined.

(** C4. In counts view the plot columns are the fixed list 0-24, 25-64,
    65-79, 80+, All ages with the names that are no column of the sheet
    struck out, in the order of the fixed list; a sheet with the same columns
    in another order gives the same list. *)
Theorem counts_plot_columns (df : DataFrame) :
  ∃ v,
    select_view "Counts" df = Ok v
    ∧ (∀ sel, selection (λ col, LStr col ∈ columns df) count_columns sel
              ↔ sel = plot_columns v)
    ∧ (∀ df', columns df' ≡ₚ columns df →
         ∃ v', select_view "Counts" df' = Ok v' ∧ plot_columns v' = plot_columns v).
Proof.
  rewrite select_view_counts. eexists. split; [reflexivity|]. simpl. split.
  - intros sel. by apply selection_iff.
  - intros df' Hperm. rewrite select_view_counts. eexists. split; [reflexivity|]. simpl.
    apply list_filter_iff. intros col. by rewrite Hperm.
Qed.

Lemma counts_plot_columns_witness :
  ∃ v,
    select_view "Counts" shuffled_table = Ok v
    ∧ plot_columns v = ["0-24"; "25-64"; "65-79"; "80+"; "All ages"].
Proof.
  destruct (counts_plot_columns ordered_table) as (v & Hview & _ & Horder).
  destruct (Horder shuffled_table) as (v' & Hview' & Hcols).
  - apply (bool_decide_unpack _). vm_compute. reflexivity.
  - exists v'. split; [exact Hview'|]. rewrite Hcols.
    vm_compute in Hview. injection Hview as <-. reflexivity.
Defined.

(** ** The loader *)

Lemma loader_test df :
  negb (empty df) && bool_decide (LStr "Year" ∈ columns df) = bool_decide (qualifies df).
Proof.
  unfold empty, qualifies. destruct df as [cols rws]; simpl.
  apply eq_true_iff_eq.
  rewrite andb_true_iff, negb_true_iff, orb_false_iff, !Nat.eqb_neq, !bool_decide_eq_true.
  split.
  - intros [[_ Hr] Hy]. split; [|done]. by destruct rws.
  - intros [Hr Hy]. repeat split; [| |done].
    + destruct cols; [by apply elem_of_nil in Hy | done].
    + by destruct rws.
Qed.

Lemma read_excel_sheet xls name df :
  NoDup (sheet_names xls) → (name, df) ∈ xls → read_excel xls name = Ok df.
Proof.
  unfold sheet_names. induction xls as [|[name' df'] xls IH]; simpl.
  - intros _ []%elem_of_nil.
  - rewrite NoDup_cons. intros [Hfresh Hnodup] [Heq|Hin]%elem_of_cons.
    + simplify_eq. by rewrite decide_True.
    + rewrite decide_False; [by apply IH|].
      intros ->. apply Hfresh. by apply (list_elem_of_fmap_2 fst) in Hin.
Qed.

Lemma read_excel_named xls name :
  name ∈ sheet_names xls → ∃ df, read_excel xls name = Ok df ∧ (name, df) ∈ xls.
Proof.
  unfold sheet_names. induction xls as [|[name' df'] xls IH]; simpl.
  - intros []%elem_of_nil.
  - intros Hin. destruct (decide (name' = name)) as [->|Hne].
    + exists df'. split; [done | left].
    + apply elem_of_cons in Hin as [?|Hin]; [congruence|].
      destruct (IH Hin) as (df & ? & ?). exists df. split; [done | by right].
Qed.

Lemma dict_setitem_fresh {V} (d : dict V) k v :
  k ∉ dict_keys d → dict_setitem d k v = d ++ [(k, v)].
Proof.
  unfold dict_keys. induction d as [|[k' v'] d IH]; simpl; [done|].
  rewrite not_elem_of_cons. intros [Hne Hfresh].
  rewrite decide_False by done. by rewrite IH.
Qed.

(** On a workbook whose sheet names are pairwise distinct the loop appends
    the valid sheets to the dictionary, in workbook order. *)
Lemma load_sheets_filter xls sheets data :
  (∀ name df, (name, df) ∈ sheets → read_excel xls name = Ok df) →
  NoDup (dict_keys data ++ sheets.*1) →
  load_sheets xls (sheets.*1) data
  = Ok (data ++ filter (λ sheet, qualifies sheet.2) sheets).
Proof.
  revert data. induction sheets as [|[name df] sheets IH]; intros data Hread Hnodup.
  - simpl. by rewrite app_nil_r.
  - simpl. rewrite (Hread name df) by left. simpl.
    rewrite loader_test, filter_cons. simpl.
    assert (Hread' : ∀ name' df', (name', df') ∈ sheets → read_excel xls name' = Ok df')
      by (intros ???; apply Hread; by right).
    simpl in Hnodup. apply NoDup_app in Hnodup as (Hd & Hdisj & Hs).
    apply NoDup_cons in Hs as [Hfresh Hs].
    destruct (decide (qualifies df)) as [Hq|Hq].
    + rewrite bool_decide_eq_true_2 by done.
      rewrite dict_setitem_fresh by (intros Hin; apply (Hdisj _ Hin); left).
      rewrite IH; [by rewrite <- app_assoc | done |].
      unfold dict_keys. rewrite fmap_app. simpl. apply NoDup_app. split_and!.
      * apply NoDup_app. split_and!; [done| |apply NoDup_singleton].
        intros k Hk ->%list_elem_of_singleton. apply (Hdisj _ Hk). left.
      * intros k [Hk| ->%list_elem_of_singleton]%elem_of_app Hin; [|done].
        apply (Hdisj _ Hk). by right.
      * done.
    + rewrite bool_decide_eq_false_2 by done.
      apply IH; [done|]. apply NoDup_app. split_and!; [done| |done].
      intros k Hk Hin. apply (Hdisj _ Hk). by right.
Qed.

Lemma load_data_filter fs path xls :
  fs path = Excel xls → NoDup (sheet_names xls) →
  load_data fs path = Ok (filter (λ sheet, qualifies sheet.2) xls).
Proof.
  intros Hfile Hnodup. unfold load_data, ExcelFile. rewrite Hfile. simpl.
  unfold sheet_names. rewrite load_sheets_filter; [done| |done].
  intros name df. by apply read_excel_sheet.
Qed.

(** When no sheet is valid the loop leaves the dictionary as it is. *)
Lemma load_sheets_none xls names data :
  (∀ name df, (name, df) ∈ xls → ¬ qualifies df) →
  names ⊆ sheet_names xls →
  load_sheets xls names data = Ok data.
Proof.
  intros Hnone. induction names as [|name names IH]; intros Hsub; [done|].
  simpl. destruct (read_excel_named xls name) as (df & -> & Hin).
  { apply Hsub. left. }
  simpl. rewrite loader_test, bool_decide_eq_false_2 by eauto.
  apply IH. intros k Hk. apply Hsub. by right.
Qed.

(** C1. On a workbook (sheet names pairwise distinct) [load_data] returns a
    dataset in which a sheet of the workbook is an entry if and only if it
    has at least one row and a column named Year; the dataset holds nothing
    but sheets of the workbook, and its keys follow workbook sheet order. *)
Theorem load_data_keeps_valid_sheets (fs : filesystem) (path : string) (xls : workbook) :
  fs path = Excel xls →
  NoDup (sheet_names xls) →
  ∃ data,
    load_data fs path = Ok data
    ∧ (∀ name df, (name, df) ∈ xls →
         ((name, df) ∈ data ↔ qualifies df) ∧ (name ∈ dict_keys data ↔ qualifies df))
    ∧ (∀ name df, (name, df) ∈ data → (name, df) ∈ xls)
    ∧ data = filter (λ sheet, qualifies sheet.2) xls
    ∧ dict_keys data `sublist_of` sheet_names xls.
Proof.
  intros Hfile Hnodup. eexists. split; [by apply load_data_filter|].
  split_and!.
  - intros name df Hin. split.
    + rewrite list_elem_of_filter. simpl. tauto.
    + unfold dict_keys. rewrite list_elem_of_fmap. split.
      * intros ([name' df'] & -> & [Hq Hin']%list_elem_of_filter). simpl in *.
        pose proof (read_excel_sheet _ _ _ Hnodup Hin) as H1.
        pose proof (read_excel_sheet _ _ _ Hnodup Hin') as H2.
        congruence.
      * intros Hq. exists (name, df). split; [done|].
        by apply list_elem_of_filter.
  - intros name df [_ Hin]%list_elem_of_filter. done.
  - done.
  - unfold dict_keys, sheet_names. apply fmap_sublist, sublist_filter.
Qed.

Lemma load_data_keeps_valid_sheets_witness :
  ∃ data,
    load_data sample_fs "population_projection_se_london_icb.xlsx" = Ok data
    ∧ dict_keys data = ["Bromley"; "Lewisham"; "SE London ICB"].
Proof.
  destruct (load_data_keeps_valid_sheets sample_fs
              "population_projection_se_london_icb.xlsx"
              [("Bromley", sample_table); ("Notes", no_year); ("Blank", headers_only);
               ("Lewisham", sample_table); ("SE London ICB", sample_table)])
    as (data & Hload & _ & _ & Hdata & _).
  - reflexivity.
  - apply (bool_decide_unpack _). vm_compute. reflexivity.
  - exists data. split; [exact Hload|]. rewrite Hdata. vm_compute. reflexivity.
Defined.

(** C2 as stated fails: at a path with no readable file [load_data] raises
    and does not return the empty mapping, called through its cache or
    not. *)
Lemma load_data_unreadable_not_empty :
  sample_fs "missing.xlsx"
  = Unreadable "[Errno 2] No such file or directory: 'missing.xlsx'"
  ∧ load_data sample_fs "missing.xlsx"
    = Raise (OSError "[Errno 2] No such file or directory: 'missing.xlsx'")
  ∧ load_data sample_fs "missing.xlsx" ≠ Ok []
  ∧ load_data_cached ∅ sample_fs "missing.xlsx"
    = (Raise (OSError "[Errno 2] No such file or directory: 'missing.xlsx'"), ∅).
Proof. split_and!; [reflexivity | reflexivity | discriminate | reflexivity]. Qed.

(** C2, amended. For a path whose file is unreadable or is not a workbook,
    the body of [load_data] raises the reader's exception.  A call for a
    path the cache does not hold runs the body: the exception reaches the
    caller, which shows the message with the path and the cause and stops,
    and nothing is stored.  A call for a path the cache holds does not look
    at the file: it returns the mapping loaded earlier, and the page is built
    from it. *)
Theorem load_data_raises_to_caller (cache : gmap string (dict DataFrame))
    (fs : filesystem) (ui : sidebar) (cause : string) :
  fs (excel_file_path ui) = Unreadable cause ∨ fs (excel_file_path ui) = Malformed cause →
  (∃ e, load_data fs (excel_file_path ui) = Raise e ∧ exn_str e = cause)
  ∧ (cache !! excel_file_path ui = None →
       (∃ e, load_data_cached cache fs (excel_file_path ui) = (Raise e, cache)
             ∧ exn_str e = cause)
       ∧ streamlit_run cache fs ui
         = ({| elements :=
                 [st_title page_title;
                  st_error ("Failed to load data from " +:+ excel_file_path ui
                            +:+ ": " +:+ cause)];
               outcome := Stopped |}, cache))
  ∧ (∀ data, cache !! excel_file_path ui = Some data →
       load_data_cached cache fs (excel_file_path ui) = (Ok data, cache)
       ∧ streamlit_run cache fs ui = (show_page (Ok data) ui, cache)).
Proof.
  intros Hfile.
  assert (Hbody : ∃ e, load_data fs (excel_file_path ui) = Raise e ∧ exn_str e = cause).
  { unfold load_data, ExcelFile.
    destruct Hfile as [-> | ->]; simpl; eexists; split; reflexivity. }
  split_and!; [done | |].
  - intros Hmiss. destruct Hbody as (e & Hload & Hcause).
    unfold streamlit_run, load_data_cached. rewrite Hmiss, Hload.
    split; [by exists e|]. simpl. by rewrite Hcause.
  - intros data Hhit. unfold streamlit_run, load_data_cached. by rewrite Hhit.
Qed.

Lemma load_data_raises_to_caller_witness :
  streamlit_run ∅ sample_fs
    {| excel_file_path := "report.txt"; area_choice := 0; view_choice := 0 |}
  = ({| elements :=
          [st_title page_title;
           st_error "Failed to load data from report.txt: Excel file format cannot be determined, you must specify an engine manually."];
        outcome := Stopped |}, ∅).
Proof.
  destruct (load_data_raises_to_caller ∅ sample_fs
              {| excel_file_path := "report.txt"; area_choice := 0; view_choice := 0 |}
              "Excel file format cannot be determined, you must specify an engine manually.")
    as (_ & Hmiss & _).
  - right. reflexivity.
  - destruct Hmiss as [_ Hpage]; [apply lookup_empty | exact Hpage].
Defined.

(** C9. When the workbook is read and none of its sheets is valid, the
    dataset is empty, the page shows the error message and stops, and no
    chart is drawn; so it is for a workbook whose only sheet has no Year
    column. *)
Theorem empty_dataset_halts (fs : filesystem) (ui : sidebar) (xls : workbook) :
  fs (excel_file_path ui) = Excel xls →
  ((∀ name df, (name, df) ∈ xls → ¬ qualifies df)
   ∨ (∃ name df, xls = [(name, df)] ∧ LStr "Year" ∉ columns df)) →
  load_data fs (excel_file_path ui) = Ok []
  ∧ streamlit_app fs ui
    = {| elements :=
           [st_title page_title;
            st_error "No valid worksheets were found in the provided Excel file."];
         outcome := Stopped |}
  ∧ charts (streamlit_app fs ui) = [].
Proof.
  intros Hfile Hnone.
  assert (Hall : ∀ name df, (name, df) ∈ xls → ¬ qualifies df).
  { destruct Hnone as [H|(name & df & -> & Hyear)]; [done|].
    intros name' df' Heq%list_elem_of_singleton [_ ?]. by simplify_eq. }
  assert (Hload : load_data fs (excel_file_path ui) = Ok []).
  { unfold load_data, ExcelFile. rewrite Hfile. simpl.
    by apply load_sheets_none. }
  split; [done|]. unfold streamlit_app. rewrite Hload. simpl. done.
Qed.

Lemma empty_dataset_halts_witness :
  charts (streamlit_app sample_fs
            {| excel_file_path := "notes.xlsx"; area_choice := 0; view_choice := 1 |}) = [].
Proof.
  apply (empty_dataset_halts sample_fs
           {| excel_file_path := "notes.xlsx"; area_choice := 0; view_choice := 1 |}
           [("Notes", no_year)]).
  - reflexivity.
  - right. exists "Notes", no_year. split; [reflexivity|].
    apply (bool_decide_unpack _). vm_compute. reflexivity.
Defined.

(** C10. The loader looks at the column labels and at whether there are
    rows, never at the cells: a sheet with a row and a column named Year is
    an entry of the dataset whatever its cells hold, texts in the Year column
    included. *)
Theorem loader_ignores_cell_values (fs : filesystem) (path : string) (xls : workbook)
    (name : string) (cols : list label) (cells : list (list cell)) :
  fs path = Excel xls →
  NoDup (sheet_names xls) →
  (name, {| columns := cols; rows := cells |}) ∈ xls →
  LStr "Year" ∈ cols →
  cells ≠ [] →
  ∃ data, load_data fs path = Ok data
          ∧ dict_getitem data name = Ok {| columns := cols; rows := cells |}.
Proof.
  intros Hfile Hnodup Hin Hyear Hrows.
  exists (filter (λ sheet, qualifies sheet.2) xls).
  split; [by apply load_data_filter|].
  clear Hfile. unfold sheet_names in Hnodup.
  induction xls as [|[name' df'] xls IH]; [by apply elem_of_nil in Hin|].
  simpl in Hnodup. apply NoDup_cons in Hnodup as [Hfresh Hnodup].
  rewrite filter_cons. simpl.
  apply elem_of_cons in Hin as [Heq|Hin].
  - simplify_eq. rewrite decide_True by done. simpl. by rewrite decide_True.
  - assert (name' ≠ name).
    { intros ->. apply Hfresh. by apply (list_elem_of_fmap_2 fst) in Hin. }
    destruct (decide (qualifies df')); simpl; [rewrite decide_False by done|]; by apply IH.
Qed.

Lemma loader_ignores_cell_values_witness :
  ∃ data, load_data sample_fs "financial_years.xlsx" = Ok data
          ∧ dict_getitem data "Bromley"
            = Ok {| columns := [LStr "Year"; LStr "0-24"];
                    rows := [[CStr "2025/26"; CNum 100]; [CStr "2026/27"; CNum 101]] |}.
Proof.
  apply (loader_ignores_cell_values sample_fs "financial_years.xlsx"
           [("Bromley", text_years); ("Notes", no_year)]).
  - reflexivity.
  - apply (bool_decide_unpack _). vm_compute. reflexivity.
  - apply (bool_decide_unpack _). vm_compute. reflexivity.
  - apply (bool_decide_unpack _). vm_compute. reflexivity.
  - discriminate.
Defined.

(** ** The sidebar *)

Lemma radio_view_options choice :
  radio view_options choice = "Percent change" ∨ radio view_options choice = "Counts".
Proof. destruct choice as [|[|choice]]; [by left | by right | by left]. Qed.

Lemma dict_getitem_elem_of {V} (d : dict V) k v : dict_getitem d k = Ok v → (k, v) ∈ d.
Proof.
  induction d as [|[k' v'] d IH]; simpl; [discriminate|].
  destruct (decide (k' = k)) as [->|Hne]; intros H.
  - simplify_eq. left.
  - right. by apply IH.
Qed.

Lemma selected_sheet_elem_of data ui area df :
  selected_sheet data ui = Ok (area, df) → (area, df) ∈ data.
Proof.
  unfold selected_sheet. intros H. inv_bind H. inv_bind H. simplify_eq.
  by apply dict_getitem_elem_of.
Qed.

(** ** Entries of the dataset are valid sheets *)

Lemma dict_setitem_elem_of {V} (d : dict V) k v k' v' :
  (k', v') ∈ dict_setitem d k v → (k', v') = (k, v) ∨ (k', v') ∈ d.
Proof.
  induction d as [|[k0 v0] d IH]; simpl.
  - intros ?%list_elem_of_singleton. by left.
  - destruct (decide (k0 = k)) as [->|Hne].
    + intros [?|?]%elem_of_cons; [by left | right; by right].
    + intros [?|Hin]%elem_of_cons; [right; simplify_eq; left|].
      destruct (IH Hin) as [?|?]; [by left | right; by right].
Qed.

Lemma load_sheets_qualify xls names data data' :
  load_sheets xls names data = Ok data' →
  (∀ k df, (k, df) ∈ data → qualifies df) →
  ∀ k df, (k, df) ∈ data' → qualifies df.
Proof.
  revert data. induction names as [|name names IH]; intros data Hload Hdata.
  - simpl in Hload. by simplify_eq.
  - simpl in Hload. inv_bind Hload. rewrite loader_test in Hload.
    destruct (decide (qualifies a)) as [Hq|Hq].
    + rewrite bool_decide_eq_true_2 in Hload by done.
      apply (IH _ Hload). intros k df [?|?]%dict_setitem_elem_of; [by simplify_eq | eauto].
    + rewrite bool_decide_eq_false_2 in Hload by done. by apply (IH _ Hload).
Qed.

Lemma load_data_qualify fs path data k df :
  load_data fs path = Ok data → (k, df) ∈ data → qualifies df.
Proof.
  unfold load_data. intros H. inv_bind H.
  apply (load_sheets_qualify _ _ _ _ H). intros ?? []%elem_of_nil.
Qed.

(** ** Tables *)

Lemma get_loc_elem_of labels key : LStr key ∈ labels → ∃ i, get_loc labels key = Ok i.
Proof.
  induction labels as [|label labels IH]; [intros []%elem_of_nil|].
  simpl. destruct (decide (label = LStr key)) as [->|Hne]; [eauto|].
  intros [?|Hin]%elem_of_cons; [congruence|].
  destruct (IH Hin) as [i ->]. simpl. eauto.
Qed.

Lemma mapM_length {A B} (f : A → result B) l k :
  mapM f l = Ok k → length k = length l.
Proof.
  revert k. induction l as [|x l IH]; intros k H; simpl in H.
  - inv_ret H. done.
  - inv_bind H. inv_bind H. inv_ret H. simpl. f_equal. by apply IH.
Qed.

Lemma mapM_get_loc labels (keys : list string) :
  (∀ key, key ∈ keys → LStr key ∈ labels) →
  ∃ positions, mapM (get_loc labels) keys = Ok positions.
Proof.
  induction keys as [|key keys IH]; intros Hsub; [by eexists|].
  destruct (get_loc_elem_of labels key) as [i Hi]; [apply Hsub; left|].
  destruct IH as [positions Hp]; [intros k Hk; apply Hsub; by right|].
  exists (i :: positions). simpl. rewrite Hi. simpl. rewrite Hp. done.
Qed.


Lemma mapM_lookup {A B} (f : A → result B) (l : list A) k j x :
  mapM f l = Ok k → l !! j = Some x → ∃ y, f x = Ok y ∧ k !! j = Some y.
Proof.
  revert k j. induction l as [|x' l IH]; intros k j H Hj; [done|].
  simpl in H. inv_bind H. inv_bind H. inv_ret H.
  destruct j as [|j]; simpl in *; [simplify_eq; eauto|].
  by apply IH.
Qed.


Lemma get_loc_lookup labels key i :
  get_loc labels key = Ok i → labels !! i = Some (LStr key).
Proof.
  revert i. induction labels as [|label labels IH]; intros i H; simpl in H; [done|].
  destruct (decide (label = LStr key)) as [->|Hne].
  - by simplify_eq.
  - inv_bind H. inv_ret H. simpl. by apply IH.
Qed.

(** A column of the table cut down to the listed columns is that column of
    the sheet. *)
Lemma getitem_list_getitem df keys plot_df key :
  getitem_list df keys = Ok plot_df →
  key ∈ keys →
  columns plot_df = LStr <$> keys ∧ getitem plot_df key = getitem df key.
Proof.
  unfold getitem_list. intros H Hkey. inv_bind H. inv_ret H.
  split; [done|]. unfold getitem. simpl.
  destruct (get_loc_elem_of (LStr <$> keys) key) as [j Hj];
    [by apply list_elem_of_fmap_2|].
  rewrite Hj. simpl.
  assert (Hkeyj : keys !! j = Some key).
  { apply get_loc_lookup in Hj. rewrite list_lookup_fmap in Hj.
    destruct (keys !! j); by simplify_eq/=. }
  destruct (mapM_lookup _ _ _ _ _ Ha Hkeyj) as (i & Hi & Hpos).
  rewrite Hi. simpl. f_equal. rewrite <- list_fmap_compose.
  apply list_fmap_ext. intros _ row _. simpl.
  unfold take_positions. by rewrite list_lookup_fmap, Hpos.
Qed.

(** The Year column of the table cut down to Year and the plot columns is
    the Year column of the sheet. *)
Lemma getitem_list_year df keys plot_df :
  getitem_list df ("Year" :: keys) = Ok plot_df →
  columns plot_df = LStr <$> "Year" :: keys
  ∧ getitem plot_df "Year" = getitem df "Year"
  ∧ ∃ years, getitem df "Year" = Ok years.
Proof.
  unfold getitem_list. intros H. inv_bind H. simpl in Ha.
  inv_bind Ha. inv_bind Ha. inv_ret Ha. simplify_eq.
  split; [done|]. unfold getitem. simpl. rewrite Ha0. simpl.
  split; [|by eexists]. f_equal. rewrite <- list_fmap_compose.
  by apply list_fmap_ext.
Qed.

(** ** Minimum and maximum of a column *)

Lemma dtype_nums (qs : list Q) : dtype (CNum <$> qs) = Number.
Proof.
  unfold dtype. replace (existsb is_str (CNum <$> qs)) with false; [done|].
  induction qs as [|q qs IH]; [done | exact IH].
Qed.

Lemma omap_num_of_nums (qs : list Q) : omap num_of (CNum <$> qs) = qs.
Proof. induction qs as [|q qs IH]; [done|]. simpl. f_equal. exact IH. Qed.

Lemma Qmin_cases (x y : Q) :
  (Qmin x y = x ∧ (x <= y)%Q) ∨ (Qmin x y = y ∧ (y <= x)%Q).
Proof.
  unfold Qmin, GenericMinMax.gmin. destruct (x ?= y)%Q eqn:Hcmp.
  - left. split; [done|]. apply Qeq_alt in Hcmp. rewrite Hcmp. apply Qle_refl.
  - left. split; [done|]. by apply Qlt_le_weak, Qlt_alt.
  - right. split; [done|]. by apply Qlt_le_weak, Qgt_alt.
Qed.

Lemma Qmax_cases (x y : Q) :
  (Qmax x y = x ∧ (y <= x)%Q) ∨ (Qmax x y = y ∧ (x <= y)%Q).
Proof.
  unfold Qmax, GenericMinMax.gmax. destruct (x ?= y)%Q eqn:Hcmp.
  - left. split; [done|]. apply Qeq_alt in Hcmp. rewrite Hcmp. apply Qle_refl.
  - right. split; [done|]. by apply Qlt_le_weak, Qlt_alt.
  - left. split; [done|]. by apply Qlt_le_weak, Qgt_alt.
Qed.

Lemma foldl_min_least (q : Q) (qs : list Q) :
  foldl Qmin q qs ∈ q :: qs ∧ ∀ x, x ∈ q :: qs → (foldl Qmin q qs <= x)%Q.
Proof.
  revert q. induction qs as [|y qs IH]; intros q; simpl.
  - split; [left|]. intros x ->%list_elem_of_singleton. apply Qle_refl.
  - destruct (IH (Qmin q y)) as [Hin Hle].
    assert (Hhead : (foldl Qmin (Qmin q y) qs <= Qmin q y)%Q) by (apply Hle; left).
    split.
    + apply elem_of_cons in Hin as [->|Hin]; [|right; by right].
      destruct (Qmin_cases q y) as [[-> _]|[-> _]]; [left | right; left].
    + intros x Hx.
      apply elem_of_cons in Hx as [->|[->|Hx]%elem_of_cons]; [| |apply Hle; by right].
      * eapply Qle_trans; [exact Hhead|].
        destruct (Qmin_cases q y) as [[-> ?]|[-> ?]]; [apply Qle_refl | done].
      * eapply Qle_trans; [exact Hhead|].
        destruct (Qmin_cases q y) as [[-> ?]|[-> ?]]; [done | apply Qle_refl].
Qed.

Lemma foldl_max_greatest (q : Q) (qs : list Q) :
  foldl Qmax q qs ∈ q :: qs ∧ ∀ x, x ∈ q :: qs → (x <= foldl Qmax q qs)%Q.
Proof.
  revert q. induction qs as [|y qs IH]; intros q; simpl.
  - split; [left|]. intros x ->%list_elem_of_singleton. apply Qle_refl.
  - destruct (IH (Qmax q y)) as [Hin Hle].
    assert (Hhead : (Qmax q y <= foldl Qmax (Qmax q y) qs)%Q) by (apply Hle; left).
    split.
    + apply elem_of_cons in Hin as [->|Hin]; [|right; by right].
      destruct (Qmax_cases q y) as [[-> _]|[-> _]]; [left | right; left].
    + intros x Hx.
      apply elem_of_cons in Hx as [->|[->|Hx]%elem_of_cons]; [| |apply Hle; by right].
      * eapply Qle_trans; [|exact Hhead].
        destruct (Qmax_cases q y) as [[-> ?]|[-> ?]]; [apply Qle_refl | done].
      * eapply Qle_trans; [|exact Hhead].
        destruct (Qmax_cases q y) as [[-> ?]|[-> ?]]; [done | apply Qle_refl].
Qed.

(** On a column of numbers [min()] and [max()] are its least and greatest
    entries. *)
Lemma series_extent_nums (qs : list Q) :
  qs ≠ [] →
  ∃ lo hi,
    series_min (CNum <$> qs) = Ok (CNum lo)
    ∧ series_max (CNum <$> qs) = Ok (CNum hi)
    ∧ lo ∈ qs ∧ hi ∈ qs ∧ ∀ q, q ∈ qs → (lo <= q <= hi)%Q.
Proof.
  intros Hne. unfold series_min, series_max, reduce_series.
  rewrite dtype_nums, omap_num_of_nums.
  destruct qs as [|q qs]; [done|].
  destruct (foldl_min_least q qs) as [Hlo Hleast].
  destruct (foldl_max_greatest q qs) as [Hhi Hgreatest].
  do 2 eexists. split_and!; [done..|]. intros x Hx. split; eauto.
Qed.


Lemma orderable_nums (qs : list Q) : orderable (CNum <$> qs).
Proof. unfold orderable. by rewrite dtype_nums. Qed.

(** ** The figure *)

Lemma px_line_Ok data_frame x y labels title cmap fig :
  px_line data_frame x y labels title cmap = Ok fig →
  trace_name <$> traces fig = y
  ∧ (∀ t, t ∈ traces fig → line_color t = cmap !! trace_name t)
  ∧ xaxis_range fig = None
  ∧ shapes fig = [].
Proof.
  unfold px_line. intros H. inv_bind H. inv_bind H.
  destruct (same_dtype a0); [|discriminate]. simplify_eq. simpl.
  apply mapM_length in Ha0. split_and!; [|  |done..].
  - rewrite <- list_fmap_compose.
    transitivity ((zip y a0).*1); [|apply fst_zip; lia].
    apply list_fmap_ext. by intros _ [name values] _.
  - intros t ([name values] & -> & _)%list_elem_of_fmap. done.
Qed.

(** What the last steps of [make_figure] leave of the figure [px.line]
    made: the reference line is the only thing the view adds, and only to a
    figure that has a line. *)
Lemma finished_figure_fields (with_baseline : bool) lo hi fig0 :
  let fig := (if with_baseline then add_hline 0 "dash" "gray" else id)
               (update_xaxes_range lo hi (update_traces_line_width 3 fig0)) in
  traces fig = traces (update_traces_line_width 3 fig0)
  ∧ title_text fig = title_text fig0
  ∧ xaxis_title fig = xaxis_title fig0
  ∧ yaxis_title fig = yaxis_title fig0
  ∧ legend_title fig = legend_title fig0
  ∧ xaxis_range fig = Some (lo, hi)
  ∧ shapes fig
    = if with_baseline && negb (bool_decide (traces fig0 = []))
      then shapes fig0 ++ [zero_baseline] else shapes fig0.
Proof.
  destruct with_baseline; simpl; [|split_and!; done].
  destruct fig0 as [[|t ts] ? ? ? ? ? ?]; cbv [add_hline]; simpl; split_and!; done.
Qed.

(** The steps of [make_figure], read back from a figure it returned. *)
Lemma make_figure_Ok data ui fig :
  make_figure data ui = Ok fig →
  ∃ area df v plot_df fig0 years lo hi,
    selected_sheet data ui = Ok (area, df)
    ∧ select_view (radio view_options (view_choice ui)) df = Ok v
    ∧ getitem_list df ("Year" :: plot_columns v) = Ok plot_df
    ∧ px_line plot_df "Year" (plot_columns v)
        (list_to_map [("value", y_label v); ("variable", "Age group")])
        (area +:+ title_suffix v) color_map = Ok fig0
    ∧ getitem plot_df "Year" = Ok years
    ∧ series_min years = Ok lo
    ∧ series_max years = Ok hi
    ∧ fig = (if zero_line v then add_hline 0 "dash" "gray" else id)
              (update_xaxes_range lo hi (update_traces_line_width 3 fig0)).
Proof.
  unfold make_figure. intros H. inv_bind H. destruct a as [area df].
  inv_bind H. inv_bind H. inv_bind H. inv_bind H. inv_bind H. inv_bind H. inv_ret H.
  exists area, df, a, a0, a1, a2, a3, a4. split_and!; try done.
  by destruct (zero_line _).
Qed.

(** A chart on the page comes from a loaded, non-empty dataset. *)
Lemma charts_streamlit_app fs ui fig :
  fig ∈ charts (streamlit_app fs ui) →
  ∃ data, load_data fs (excel_file_path ui) = Ok data
          ∧ data ≠ []
          ∧ make_figure data ui = Ok fig.
Proof.
  unfold streamlit_app, charts.
  destruct (load_data fs (excel_file_path ui)) as [data|e]; simpl.
  - case_bool_decide as Hdata; simpl; [intros []%elem_of_nil|].
    destruct (make_figure data ui) as [fig'|e] eqn:Hfig; simpl; [|intros []%elem_of_nil].
    intros ->%list_elem_of_singleton. eauto.
  - intros []%elem_of_nil.
Qed.




Lemma make_figure_traces data ui fig :
  make_figure data ui = Ok fig →
  ∀ t, t ∈ traces fig →
    line_color t = color_map !! trace_name t ∧ line_width t = Some 3.
Proof.
  intros (area & df & v & plot_df & fig0 & years & lo & hi
          & _ & _ & _ & Hline & _ & _ & _ & ->)%make_figure_Ok.
  apply px_line_Ok in Hline as (_ & Hcolor & _ & _).
  intros t Ht.
  destruct (finished_figure_fields (zero_line v) lo hi fig0) as (Htraces & _).
  rewrite Htraces in Ht. simpl in Ht.
  apply list_elem_of_fmap in Ht as (t0 & -> & Ht0). simpl.
  split; [by apply Hcolor | done].
Qed.

Lemma make_figure_shapes data ui fig :
  make_figure data ui = Ok fig →
  shapes fig
  = if bool_decide (radio view_options (view_choice ui) = "Percent change")
       && negb (bool_decide (traces fig = []))
    then [zero_baseline] else [].
Proof.
  intros (area & df & v & plot_df & fig0 & years & lo & hi
          & _ & Hview & _ & Hline & _ & _ & _ & ->)%make_figure_Ok.
  apply px_line_Ok in Hline as (_ & _ & _ & Hshapes).
  destruct (finished_figure_fields (zero_line v) lo hi fig0) as (-> & _ & _ & _ & _ & _ & ->).
  rewrite Hshapes. simpl.
  assert (bool_decide (traces fig0 = [])
          = bool_decide ((λ t, {| trace_name := trace_name t; trace_x := trace_x t;
                                   trace_y := trace_y t; line_color := line_color t;
                                   line_width := Some 3 |}) <$> traces fig0 = [])) as <-.
  { by destruct (traces fig0). }
  destruct (select_view_fields _ _ _ Hview) as [Hpct Hother].
  destruct (decide (radio view_options (view_choice ui) = "Percent change")) as [Hmode|Hmode].
  - rewrite (bool_decide_eq_true_2 _ Hmode). destruct (Hpct Hmode) as (-> & _). done.
  - rewrite (bool_decide_eq_false_2 _ Hmode). destruct (Hother Hmode) as (-> & _). done.
Qed.

(** C5 as stated fails: in percent-change view a sheet with no ["_pct"]
    column gives a chart without lines, and [add_hline] adds nothing to such
    a figure, so the chart has no baseline. *)
Lemma percent_change_chart_without_baseline :
  radio view_options 0 = "Percent change"
  ∧ ∃ fig,
      charts (streamlit_app sample_fs
                {| excel_file_path := "bare.xlsx"; area_choice := 0; view_choice := 0 |})
      = [fig]
      ∧ traces fig = []
      ∧ shapes fig = [].
Proof. split; [reflexivity|]. eexists. vm_compute. done. Qed.

(** C5, amended. The chart on the page has the dashed line at height zero
    if and only if the view is the percent-change one and the chart has at
    least one line; in counts view the chart has no reference line at all. *)
Theorem zero_baseline_iff_percent_change (fs : filesystem) (ui : sidebar) (fig : Figure) :
  fig ∈ charts (streamlit_app fs ui) →
  (zero_baseline ∈ shapes fig
   ↔ radio view_options (view_choice ui) = "Percent change" ∧ traces fig ≠ [])
  ∧ (radio view_options (view_choice ui) = "Counts" → shapes fig = []).
Proof.
  intros (data & _ & _ & Hfig)%charts_streamlit_app.
  rewrite (make_figure_shapes _ _ _ Hfig).
  case_bool_decide as Hview; case_bool_decide as Hlines; simpl; split.
  - split; [by intros []%elem_of_nil | by intros [_ ?]].
  - done.
  - split; [done | intros _; left].
  - rewrite Hview. discriminate.
  - split; [by intros []%elem_of_nil | by intros [? _]].
  - done.
  - split; [by intros []%elem_of_nil | by intros [? _]].
  - done.
Qed.

Lemma zero_baseline_iff_percent_change_witness :
  ∃ fig,
    fig ∈ charts (streamlit_app sample_fs default_ui)
    ∧ zero_baseline ∈ shapes fig.
Proof.
  destruct (streamlit_app sample_fs default_ui) as [els out] eqn:Hpage.
  vm_compute in Hpage. injection Hpage as <- <-.
  eexists. split; [left|].
  apply (zero_baseline_iff_percent_change sample_fs default_ui).
  - vm_compute. left.
  - split; [reflexivity | discriminate].
Defined.

(** C6. Each of the five count series has a colour in the colour table, its
    percent-change variant (the same name followed by ["_pct"]) has that same
    colour, which is also what stripping the suffix and looking the base name
    up gives, and on every chart the line of either name is drawn in it. *)
Theorem color_of_pct_variant (S : string) :
  S ∈ count_columns →
  ∃ color,
    color_map !! S = Some color
    ∧ color_map !! (S +:+ "_pct") = Some color
    ∧ color_by_stem (S +:+ "_pct") = Some color
    ∧ ∀ fs ui fig t,
        fig ∈ charts (streamlit_app fs ui) →
        t ∈ traces fig →
        trace_name t = S ∨ trace_name t = S +:+ "_pct" →
        line_color t = Some color.
Proof.
  intros HS.
  assert (∃ color, color_map !! S = Some color
                   ∧ color_map !! (S +:+ "_pct") = Some color
                   ∧ color_by_stem (S +:+ "_pct") = Some color)
    as (color & Hcount & Hpct & Hstem).
  { revert HS. unfold count_columns. rewrite !elem_of_cons, elem_of_nil.
    intros [->|[->|[->|[->|[->|[]]]]]]; eexists; split_and!; vm_compute; reflexivity. }
  exists color. split_and!; [done..|].
  intros fs ui fig t (data & _ & _ & Hfig)%charts_streamlit_app Ht Hname.
  destruct (make_figure_traces _ _ _ Hfig t Ht) as [-> _].
  by destruct Hname as [-> | ->].
Qed.

Lemma color_of_pct_variant_witness :
  color_map !! "80+" = Some "#E74C3C" ∧ color_map !! "80+_pct" = Some "#E74C3C".
Proof.
  destruct (color_of_pct_variant "80+") as (color & Hcount & Hpct & _ & _).
  - apply (bool_decide_unpack _). vm_compute. reflexivity.
  - assert (color = "#E74C3C") as ->.
    { vm_compute in Hcount. injection Hcount as <-. reflexivity. }
    split; [exact Hcount | exact Hpct].
Defined.


(** C7. On every chart the x-axis range is the pair (minimum, maximum) of
    the Year column of the table cut down to Year and the plot columns, which
    is the Year column of the selected sheet; when the Year values are
    numbers (integers among them) the two bounds are the least and the
    greatest of them, so the range reaches no further than the data. *)
Theorem xaxis_range_is_year_extent (fs : filesystem) (ui : sidebar) (fig : Figure) :
  fig ∈ charts (streamlit_app fs ui) →
  ∃ data area df v plot_df years lo hi,
    load_data fs (excel_file_path ui) = Ok data
    ∧ selected_sheet data ui = Ok (area, df)
    ∧ select_view (radio view_options (view_choice ui)) df = Ok v
    ∧ getitem_list df ("Year" :: plot_columns v) = Ok plot_df
    ∧ getitem plot_df "Year" = Ok years
    ∧ getitem df "Year" = Ok years
    ∧ series_min years = Ok lo
    ∧ series_max years = Ok hi
    ∧ xaxis_range fig = Some (lo, hi)
    ∧ ∀ qs : list Q, years = CNum <$> qs →
        ∃ a b, lo = CNum a ∧ hi = CNum b ∧ a ∈ qs ∧ b ∈ qs
               ∧ ∀ q, q ∈ qs → (a <= q <= b)%Q.
Proof.
  intros (data & Hload & _ & Hfig)%charts_streamlit_app.
  destruct (make_figure_Ok _ _ _ Hfig)
    as (area & df & v & plot_df & fig0 & years & lo & hi
        & Hsheet & Hview & Htable & Hline & Hyear & Hlo & Hhi & ->).
  exists data, area, df, v, plot_df, years, lo, hi.
  destruct (getitem_list_year _ _ _ Htable) as (_ & Hsame & _).
  destruct (finished_figure_fields (zero_line v) lo hi fig0) as (_ & _ & _ & _ & _ & Hrange & _).
  split_and!; try done.
  - by rewrite <- Hsame.
  - intros qs ->.
    assert (Hrows : qs ≠ []).
    { intros ->. rewrite Hsame in Hyear.
      apply selected_sheet_elem_of in Hsheet.
      destruct (load_data_qualify _ _ _ _ _ Hload Hsheet) as [Hne _].
      unfold getitem in Hyear. inv_bind Hyear. inv_ret Hyear.
      by apply fmap_nil_inv in Hyear. }
    destruct (series_extent_nums qs Hrows) as (a & b & Ha & Hb & ? & ? & ?).
    exists a, b. rewrite Ha in Hlo. rewrite Hb in Hhi. by simplify_eq.
Qed.

Lemma xaxis_range_is_year_extent_witness :
  ∃ fig,
    fig ∈ charts (streamlit_app sample_fs
                    {| excel_file_path := "population_projection_se_london_icb.xlsx";
                       area_choice := 1; view_choice := 1 |})
    ∧ xaxis_range fig = Some (CNum 2025, CNum 2035).
Proof.
  destruct (streamlit_app sample_fs
              {| excel_file_path := "population_projection_se_london_icb.xlsx";
                 area_choice := 1; view_choice := 1 |}) as [els out] eqn:Hpage.
  vm_compute in Hpage. injection Hpage as <- <-.
  eexists. split; [left|].
  edestruct (xaxis_range_is_year_extent sample_fs
               {| excel_file_path := "population_projection_se_london_icb.xlsx";
                  area_choice := 1; view_choice := 1 |})
    as (data & area & df & v & plot_df & years & lo & hi
        & _ & _ & _ & _ & _ & _ & _ & _ & Hrange & _).
  - vm_compute. left.
  - rewrite Hrange. vm_compute in Hrange. injection Hrange as <- <-. reflexivity.
Defined.




(** ** The scenarios of the specification, on the sample workbook *)

(** Scenario A: three areas in workbook order; the first page shows the five
    percent-change lines, the zero baseline, and the years 2025 to 2035. *)
Example scenario_default_page :
  dict_keys <$> load_data sample_fs (excel_file_path default_ui)
  = Ok ["Bromley"; "Lewisham"; "SE London ICB"]
  ∧ ∃ fig,
      charts (streamlit_app sample_fs default_ui) = [fig]
      ∧ trace_name <$> traces fig
        = ["0-24_pct"; "25-64_pct"; "65-79_pct"; "80+_pct"; "All ages_pct"]
      ∧ title_text fig = "Bromley – Percent Change"
      ∧ shapes fig = [zero_baseline]
      ∧ xaxis_range fig = Some (CNum 2025, CNum 2035).
Proof. split; [vm_compute; reflexivity|]. eexists. vm_compute. done. Qed.

(** Scenario C: switching Lewisham from percent change to counts swaps the
    five lines, drops the baseline and keeps each bracket's colour. *)
Example scenario_switch_to_counts :
  ∃ pct counts,
    charts (streamlit_app sample_fs
              {| excel_file_path := "population_projection_se_london_icb.xlsx";
                 area_choice := 1; view_choice := 0 |}) = [pct]
    ∧ charts (streamlit_app sample_fs
                {| excel_file_path := "population_projection_se_london_icb.xlsx";
                   area_choice := 1; view_choice := 1 |}) = [counts]
    ∧ trace_name <$> traces counts = count_columns
    ∧ trace_name <$> traces pct = (λ S, S +:+ "_pct") <$> count_columns
    ∧ shapes pct = [zero_baseline]
    ∧ shapes counts = []
    ∧ line_color <$> traces pct = line_color <$> traces counts.
Proof. do 2 eexists. vm_compute. done. Qed.

(** * Further properties of the script *)

(** ** Dictionaries *)

Lemma dict_getitem_setitem {V} (d : dict V) k v k' :
  dict_getitem (dict_setitem d k v) k'
  = if decide (k = k') then Ok v else dict_getitem d k'.
Proof.
  induction d as [|[k0 v0] d IH]; simpl.
  - destruct (decide (k = k')); done.
  - destruct (decide (k0 = k)) as [->|Hne]; simpl.
    + destruct (decide (k = k')); done.
    + destruct (decide (k0 = k')) as [->|Hne'].
      * by rewrite decide_False by done.
      * exact IH.
Qed.

Lemma dict_keys_setitem {V} (d : dict V) k v :
  dict_keys (dict_setitem d k v)
  = if decide (k ∈ dict_keys d) then dict_keys d else dict_keys d ++ [k].
Proof.
  unfold dict_keys. induction d as [|[k0 v0] d IH].
  - cbn [dict_setitem fmap list_fmap]. rewrite decide_False; [done | apply not_elem_of_nil].
  - cbn [dict_setitem]. destruct (decide (k0 = k)) as [->|Hne]; cbn [fmap list_fmap fst].
    + rewrite decide_True; [done | left].
    + fold (@fmap list _ _ _ (@fst string V) (dict_setitem d k v)).
      fold (@fmap list _ _ _ (@fst string V) d).
      rewrite IH. destruct (decide (k ∈ d.*1)) as [Hin|Hin].
      * rewrite decide_True; [done | by right].
      * rewrite decide_False; [done|]. by intros [?|?]%elem_of_cons.
Qed.

Lemma dict_getitem_is_key {V} (d : dict V) k v : dict_getitem d k = Ok v → k ∈ dict_keys d.
Proof. intros H%dict_getitem_elem_of. by apply (list_elem_of_fmap_2 fst) in H. Qed.

Lemma dict_getitem_lookup {V} (d : dict V) i k v :
  NoDup (dict_keys d) → d !! i = Some (k, v) → dict_getitem d k = Ok v.
Proof.
  unfold dict_keys. revert i. induction d as [|[k0 v0] d IH]; intros i Hnodup Hi; [done|].
  simpl in Hnodup. apply NoDup_cons in Hnodup as [Hfresh Hnodup]. simpl.
  destruct i as [|i]; simpl in Hi.
  - simplify_eq. by rewrite decide_True.
  - rewrite decide_False; [by eapply IH|].
    intros ->. apply Hfresh. apply list_elem_of_lookup_2 in Hi.
    by apply (list_elem_of_fmap_2 fst) in Hi.
Qed.

(** ** The loop of the loader, on any workbook *)

Lemma load_sheets_spec xls names data :
  names ⊆ sheet_names xls →
  (∀ name df, dict_getitem data name = Ok df → read_excel xls name = Ok df ∧ qualifies df) →
  ∃ data',
    load_sheets xls names data = Ok data'
    ∧ (NoDup (dict_keys data) → NoDup (dict_keys data'))
    ∧ dict_keys data' ⊆ dict_keys data ++ names
    ∧ ∀ name df,
        dict_getitem data' name = Ok df
        ↔ dict_getitem data name = Ok df
          ∨ (name ∈ names ∧ read_excel xls name = Ok df ∧ qualifies df).
Proof.
  revert data. induction names as [|name0 names IH]; intros data Hsub Hinv.
  - exists data. split_and!; [done|done|by rewrite app_nil_r|].
    intros name df. split; [by left|]. intros [?|[[]%elem_of_nil _]]. done.
  - destruct (read_excel_named xls name0) as (df0 & Hread & _); [apply Hsub; left|].
    assert (Hsub' : names ⊆ sheet_names xls) by (intros k Hk; apply Hsub; by right).
    simpl. rewrite Hread. simpl. rewrite loader_test.
    destruct (decide (qualifies df0)) as [Hq|Hq].
    + rewrite bool_decide_eq_true_2 by done.
      destruct (IH (dict_setitem data name0 df0) Hsub') as (data' & Hload & Hnodup & Hkeys & Hget).
      { intros name df. rewrite dict_getitem_setitem.
        destruct (decide (name0 = name)) as [<-|Hne]; [|apply Hinv].
        intros ?. by simplify_eq. }
      exists data'. split_and!; [done| | |].
      * intros Hd. apply Hnodup. rewrite dict_keys_setitem.
        destruct (decide _) as [|Hfresh]; [done|].
        apply NoDup_app. split_and!; [done| |apply NoDup_singleton].
        by intros k Hk ->%list_elem_of_singleton.
      * intros k Hk. apply Hkeys in Hk. rewrite dict_keys_setitem in Hk.
        destruct (decide _) as [Hold|Hfresh]; revert Hk;
          rewrite !elem_of_app, ?list_elem_of_singleton, elem_of_cons; tauto.
      * intros name df. rewrite Hget, dict_getitem_setitem.
        destruct (decide (name0 = name)) as [<-|Hne]; split.
        -- intros [?|(? & ? & ?)]; right; (split; [left|]); [by simplify_eq | done].
        -- intros [Hold|(_ & ? & ?)]; left; [|congruence].
           apply Hinv in Hold as [? _]. congruence.
        -- intros [?|(? & ? & ?)]; [by left | right]. split; [by right | done].
        -- intros [?|([?|?]%elem_of_cons & ? & ?)]; [by left | done | by right].
    + rewrite bool_decide_eq_false_2 by done.
      destruct (IH data Hsub' Hinv) as (data' & Hload & Hnodup & Hkeys & Hget).
      exists data'. split_and!; [done|done| |].
      * intros k Hk. apply Hkeys in Hk. revert Hk.
        rewrite !elem_of_app, elem_of_cons. tauto.
      * intros name df. rewrite Hget. split.
        -- intros [?|(? & ? & ?)]; [by left | right]. split; [by right | done].
        -- intros [?|([->|?]%elem_of_cons & ? & ?)]; [by left | | by right].
           exfalso. apply Hq. congruence.
Qed.

Lemma load_data_keys_nodup fs path data :
  load_data fs path = Ok data → NoDup (dict_keys data).
Proof.
  unfold load_data. intros H. inv_bind H.
  destruct (load_sheets_spec a (sheet_names a) []) as (data' & Hload & Hnodup & _).
  { done. }
  { intros name df. simpl. discriminate. }
  assert (data' = data) as -> by congruence.
  apply Hnodup, NoDup_nil_2.
Qed.

(** X1. A workbook that opens always loads: [load_data] raises nothing once
    [pd.ExcelFile] has succeeded, whatever the sheets hold.  The keys of the
    dataset are pairwise distinct sheet names, and a name is bound to a table
    exactly when that is the table read under the name and it is valid. *)
Theorem load_data_total (fs : filesystem) (path : string) (xls : workbook) :
  fs path = Excel xls →
  ∃ data,
    load_data fs path = Ok data
    ∧ NoDup (dict_keys data)
    ∧ dict_keys data ⊆ sheet_names xls
    ∧ ∀ name df,
        dict_getitem data name = Ok df
        ↔ read_excel xls name = Ok df ∧ qualifies df.
Proof.
  intros Hfile. unfold load_data, ExcelFile. rewrite Hfile. simpl.
  destruct (load_sheets_spec xls (sheet_names xls) []) as (data & Hload & Hnodup & Hkeys & Hget).
  { done. }
  { intros name df. simpl. discriminate. }
  exists data. split_and!; [done | apply Hnodup, NoDup_nil_2 | done |].
  intros name df. rewrite Hget. simpl. split.
  - intros [?|(_ & ? & ?)]; done.
  - intros [Hread Hq]. right. split; [|done].
    clear -Hread. unfold sheet_names.
    induction xls as [|[name' df'] xls IH]; simpl in *; [done|].
    destruct (decide (name' = name)) as [->|Hne]; [left | right; by apply IH].
Qed.

Lemma load_data_total_witness :
  ∃ data,
    load_data sample_fs "financial_years.xlsx" = Ok data
    ∧ NoDup (dict_keys data).
Proof.
  destruct (load_data_total sample_fs "financial_years.xlsx"
              [("Bromley", text_years); ("Notes", no_year)])
    as (data & Hload & Hnodup & _).
  - reflexivity.
  - exists data. split; [exact Hload | exact Hnodup].
Defined.

Lemma show_page_no_sheet (data : dict DataFrame) ui :
  st_error "No valid worksheets were found in the provided Excel file."
    ∈ elements (show_page (Ok data) ui)
  ↔ data = [].
Proof.
  unfold show_page. case_bool_decide as Hempty; simpl.
  - split; [done|]. intros _. right. left.
  - split; [|done]. destruct (make_figure data ui); simpl;
      rewrite ?elem_of_cons, elem_of_nil; intros H; exfalso; intuition discriminate.
Qed.

(** X2. The message about no valid worksheet is shown only when it is true
    of the dataset the run works on.  On a run that reads the workbook (its
    path is not in the cache; sheet names pairwise distinct) the dataset is
    empty, and the page carries the message, exactly when no sheet has both
    a row and a Year column.  On a run served from the cache the message is
    shown exactly when the cached dataset is empty, whatever the workbook
    holds by then. *)
Theorem no_valid_sheet_iff_error (cache : gmap string (dict DataFrame))
    (fs : filesystem) (ui : sidebar) (xls : workbook) :
  fs (excel_file_path ui) = Excel xls →
  NoDup (sheet_names xls) →
  (cache !! excel_file_path ui = None →
     ((load_data_cached cache fs (excel_file_path ui)).1 = Ok []
      ↔ ∀ name df, (name, df) ∈ xls → ¬ qualifies df)
     ∧ (st_error "No valid worksheets were found in the provided Excel file."
          ∈ elements (streamlit_run cache fs ui).1
        ↔ ∀ name df, (name, df) ∈ xls → ¬ qualifies df))
  ∧ (∀ data, cache !! excel_file_path ui = Some data →
       (load_data_cached cache fs (excel_file_path ui)).1 = Ok data
       ∧ (st_error "No valid worksheets were found in the provided Excel file."
            ∈ elements (streamlit_run cache fs ui).1
          ↔ data = [])).
Proof.
  intros Hfile Hnodup.
  pose proof (load_data_filter fs _ xls Hfile Hnodup) as Hload.
  assert (Hnil : filter (λ sheet : string * DataFrame, qualifies sheet.2) xls = []
                 ↔ ∀ name df, (name, df) ∈ xls → ¬ qualifies df).
  { split.
    - intros Hempty name df Hin Hq.
      assert ((name, df) ∈ filter (λ sheet : string * DataFrame, qualifies sheet.2) xls)
        as Hin' by (by apply list_elem_of_filter).
      rewrite Hempty in Hin'. by apply elem_of_nil in Hin'.
    - intros Hnone. destruct (filter _ xls) as [|[name df] rest] eqn:Hf; [done|].
      assert ((name, df) ∈ filter (λ sheet : string * DataFrame, qualifies sheet.2) xls)
        as [Hq Hin]%list_elem_of_filter by (rewrite Hf; left).
      by destruct (Hnone name df Hin). }
  split.
  - intros Hmiss. unfold streamlit_run, load_data_cached. rewrite Hmiss, Hload.
    cbn [fst]. rewrite show_page_no_sheet, <- Hnil.
    split; [|done]. split; [by intros [=] | by intros ->].
  - intros data Hhit. unfold streamlit_run, load_data_cached. rewrite Hhit.
    cbn [fst]. split; [done | apply show_page_no_sheet].
Qed.

Lemma no_valid_sheet_iff_error_witness :
  st_error "No valid worksheets were found in the provided Excel file."
    ∈ elements (streamlit_run ∅ sample_fs
                  {| excel_file_path := "notes.xlsx"; area_choice := 0; view_choice := 0 |}).1.
Proof.
  destruct (no_valid_sheet_iff_error ∅ sample_fs
              {| excel_file_path := "notes.xlsx"; area_choice := 0; view_choice := 0 |}
              [("Notes", no_year)]) as [Hmiss _].
  - reflexivity.
  - apply (bool_decide_unpack _). vm_compute. reflexivity.
  - destruct Hmiss as [_ Hshown]; [apply lookup_empty|].
    apply Hshown.
    intros name df Hin [_ Hyear]. apply list_elem_of_singleton in Hin.
    injection Hin as -> ->. revert Hyear. apply (bool_decide_unpack _).
    vm_compute. reflexivity.
Defined.

(** ** The area picked in the sidebar *)

Lemma dict_getitem_key {V} (d : dict V) k : k ∈ dict_keys d → ∃ v, dict_getitem d k = Ok v.
Proof.
  unfold dict_keys. induction d as [|[k0 v0] d IH]; simpl; [intros []%elem_of_nil|].
  destruct (decide (k0 = k)) as [->|Hne]; [eauto|].
  intros [?|?]%elem_of_cons; [congruence | by apply IH].
Qed.

Lemma selected_sheet_total (data : dict DataFrame) ui :
  data ≠ [] → ∃ area df, selected_sheet data ui = Ok (area, df).
Proof.
  intros Hne. unfold selected_sheet, selectbox, choose.
  assert (∃ area, match dict_keys data !! area_choice ui with
                  | Some o => Some o
                  | None => head (dict_keys data)
                  end = Some area ∧ area ∈ dict_keys data) as (area & -> & Hin).
  { destruct (dict_keys data !! area_choice ui) as [o|] eqn:Ho.
    - exists o. split; [done|]. by eapply list_elem_of_lookup_2.
    - destruct data as [|[k v] data]; [done|]. exists k. split; [done | left]. }
  simpl. destruct (dict_getitem_key data area Hin) as [df ->]. simpl. eauto.
Qed.

(** X3. The area list offers the loaded sheets in workbook order and the
    lookup of the picked one cannot fail: picking position [i] selects the
    [i]-th entry of the dataset, name and table (position 0, the widget's
    default, selects the first valid sheet). *)
Theorem selected_sheet_by_position (fs : filesystem) (ui : sidebar)
    (data : dict DataFrame) (area : string) (df : DataFrame) :
  load_data fs (excel_file_path ui) = Ok data →
  data !! area_choice ui = Some (area, df) →
  selected_sheet data ui = Ok (area, df).
Proof.
  intros Hload Hpick.
  pose proof (load_data_keys_nodup _ _ _ Hload) as Hnodup.
  unfold selected_sheet, selectbox, choose, dict_keys.
  rewrite list_lookup_fmap, Hpick. simpl.
  rewrite (dict_getitem_lookup data _ _ _ Hnodup Hpick). done.
Qed.

Lemma selected_sheet_by_position_witness :
  selected_sheet
    [("Bromley", sample_table); ("Lewisham", sample_table); ("SE London ICB", sample_table)]
    {| excel_file_path := "population_projection_se_london_icb.xlsx";
       area_choice := 1; view_choice := 0 |}
  = Ok ("Lewisham", sample_table).
Proof.
  apply (selected_sheet_by_position sample_fs
           {| excel_file_path := "population_projection_se_london_icb.xlsx";
              area_choice := 1; view_choice := 0 |}).
  - vm_compute. reflexivity.
  - reflexivity.
Defined.

(** ** The table handed to the chart *)

Lemma getitem_length df col s : getitem df col = Ok s → length s = length (rows df).
Proof. unfold getitem. intros H. inv_bind H. inv_ret H. apply length_fmap. Qed.

Lemma plot_table_lookup df view_type v :
  LStr "Year" ∈ columns df →
  select_view view_type df = Ok v →
  ∃ plot_df,
    getitem_list df ("Year" :: plot_columns v) = Ok plot_df
    ∧ ∀ col, col ∈ "Year" :: plot_columns v →
        ∃ s, getitem plot_df col = Ok s ∧ getitem df col = Ok s.
Proof.
  intros Hyear Hview.
  set (keys := "Year" :: plot_columns v).
  assert (Hkeys : ∀ col, col ∈ keys → LStr col ∈ columns df).
  { intros col [->|Hcol]%elem_of_cons; [done | by eapply select_view_subset]. }
  destruct (mapM_get_loc (columns df) keys Hkeys) as [positions Hpos].
  exists {| columns := LStr <$> keys; rows := take_positions positions <$> rows df |}.
  assert (Htable : getitem_list df keys
                   = Ok {| columns := LStr <$> keys;
                           rows := take_positions positions <$> rows df |}).
  { unfold getitem_list. rewrite Hpos. done. }
  split; [done|]. intros col Hcol.
  destruct (getitem_list_getitem _ _ _ col Htable Hcol) as [_ Heq].
  destruct (get_loc_elem_of (columns df) col (Hkeys col Hcol)) as [i Hi].
  exists ((λ row, default CNaN (row !! i)) <$> rows df).
  rewrite Heq. unfold getitem. rewrite Hi. done.
Qed.

(** X4. Cutting the selected sheet down to Year and the plot columns (line
    104) cannot fail on a sheet of the dataset, in either view, once the
    plot columns are computed (as they are in counts view, and in
    percent-change view when the labels are texts): the result has exactly
    those columns, in that order, as many rows as the sheet, and each of its
    columns is the sheet's column of that name. *)
Theorem plot_table_projection (fs : filesystem) (path : string)
    (data : dict DataFrame) (name : string) (df : DataFrame) (view_type : string) :
  load_data fs path = Ok data →
  (name, df) ∈ data →
  (view_type ≠ "Percent change" ∨ (∃ names, text_labels df names) →
   ∃ v, select_view view_type df = Ok v)
  ∧ ∀ v, select_view view_type df = Ok v →
      ∃ plot_df,
        getitem_list df ("Year" :: plot_columns v) = Ok plot_df
        ∧ columns plot_df = LStr <$> "Year" :: plot_columns v
        ∧ length (rows plot_df) = length (rows df)
        ∧ ∀ col, col ∈ "Year" :: plot_columns v →
            ∃ s, getitem plot_df col = Ok s ∧ getitem df col = Ok s.
Proof.
  intros Hload Hin. split; [apply select_view_total|]. intros v Hview.
  destruct (load_data_qualify _ _ _ _ _ Hload Hin) as [_ Hyear].
  destruct (plot_table_lookup df view_type v Hyear Hview) as (plot_df & Htable & Hcol).
  exists plot_df.
  destruct (getitem_list_year _ _ _ Htable) as (Hcols & _).
  split_and!; [done | done | | done].
  unfold getitem_list in Htable. inv_bind Htable. inv_ret Htable. apply length_fmap.
Qed.

Lemma plot_table_projection_witness :
  ∃ plot_df,
    getitem_list sample_table ("Year" :: count_columns) = Ok plot_df
    ∧ columns plot_df = LStr <$> "Year" :: count_columns.
Proof.
  destruct (plot_table_projection sample_fs "population_projection_se_london_icb.xlsx"
              [("Bromley", sample_table); ("Lewisham", sample_table);
               ("SE London ICB", sample_table)]
              "Bromley" sample_table "Counts") as [Htotal Hcut].
  - vm_compute. reflexivity.
  - left.
  - destruct Htotal as [v Hview]; [left; discriminate|].
    destruct (Hcut v Hview) as (plot_df & Htable & Hcols & _).
    vm_compute in Hview. injection Hview as <-.
    exists plot_df. split; [exact Htable | exact Hcols].
Defined.

(** ** What the chart shows *)

Lemma px_column_Ok data_frame name s :
  px_column data_frame name = Ok s → getitem data_frame name = Ok s.
Proof. unfold px_column. destruct (getitem data_frame name); [done | discriminate]. Qed.

Lemma px_line_inv data_frame x y labels title cmap fig :
  px_line data_frame x y labels title cmap = Ok fig →
  ∃ xs ys,
    px_column data_frame x = Ok xs
    ∧ mapM (px_column data_frame) y = Ok ys
    ∧ fig = {| traces :=
                 (λ '(name, values),
                    {| trace_name := name; trace_x := xs; trace_y := values;
                       line_color := cmap !! name; line_width := None |}) <$> zip y ys;
               title_text := title;
               xaxis_title := default x (labels !! x);
               yaxis_title := default "value" (labels !! "value");
               legend_title :=
                 match y with
                 | [] => None
                 | _ :: _ => Some (default "variable" (labels !! "variable"))
                 end;
               xaxis_range := None;
               shapes := [] |}.
Proof.
  unfold px_line. intros H. inv_bind H. inv_bind H.
  destruct (same_dtype a0); [|discriminate]. inv_ret H. eauto.
Qed.

Lemma make_figure_lines data ui fig area df :
  make_figure data ui = Ok fig →
  selected_sheet data ui = Ok (area, df) →
  ∃ v,
    select_view (radio view_options (view_choice ui)) df = Ok v
    ∧ trace_name <$> traces fig = plot_columns v
    ∧ ∀ t, t ∈ traces fig →
        getitem df "Year" = Ok (trace_x t)
        ∧ getitem df (trace_name t) = Ok (trace_y t)
        ∧ line_width t = Some 3.
Proof.
  intros Hfig Hsheet'.
  destruct (make_figure_Ok _ _ _ Hfig)
    as (area' & df' & v & plot_df & fig0 & years & lo & hi
        & Hsheet & Hview & Htable & Hline & Hyear & _ & _ & ->).
  assert (area' = area ∧ df' = df) as [-> ->] by (split; congruence).
  exists v. split; [done|].
  destruct (finished_figure_fields (zero_line v) lo hi fig0) as (Htraces & _).
  rewrite Htraces. clear Htraces.
  split.
  - apply px_line_Ok in Hline as (Hnames & _). rewrite <- Hnames.
    simpl. rewrite <- list_fmap_compose. done.
  - intros t Ht.
    apply px_line_inv in Hline as (xs & ys & Hxs & Hys & ->). simpl in Ht.
    rewrite <- list_fmap_compose in Ht.
    apply list_elem_of_fmap in Ht as ([col values] & -> & Hzip). simpl.
    apply list_elem_of_lookup_1 in Hzip as [j Hj].
    apply lookup_zip_with_Some in Hj as (col' & values' & [= <- <-] & Hcol & Hvalues).
    destruct (mapM_lookup _ _ _ _ _ Hys Hcol) as (values'' & Hpx & Hvalues').
    assert (values'' = values) as -> by congruence.
    apply px_column_Ok in Hxs, Hpx.
    destruct (getitem_list_getitem _ _ _ "Year" Htable) as [_ <-]; [left|].
    destruct (getitem_list_getitem _ _ _ col Htable) as [_ <-].
    { right. by eapply list_elem_of_lookup_2. }
    done.
Qed.

(** X5. Every chart has one line per plot column, in the order of the plot
    columns; the line named after a column plots that column of the selected
    sheet against the sheet's Year column, with stroke width 3. *)
Theorem chart_lines (fs : filesystem) (ui : sidebar) (fig : Figure) :
  fig ∈ charts (streamlit_app fs ui) →
  ∃ data area df v,
    load_data fs (excel_file_path ui) = Ok data
    ∧ selected_sheet data ui = Ok (area, df)
    ∧ select_view (radio view_options (view_choice ui)) df = Ok v
    ∧ trace_name <$> traces fig = plot_columns v
    ∧ ∀ t, t ∈ traces fig →
        getitem df "Year" = Ok (trace_x t)
        ∧ getitem df (trace_name t) = Ok (trace_y t)
        ∧ line_width t = Some 3.
Proof.
  intros (data & Hload & Hdata & Hfig)%charts_streamlit_app.
  destruct (selected_sheet_total data ui Hdata) as (area & df & Hsheet).
  destruct (make_figure_lines _ _ _ _ _ Hfig Hsheet) as (v & Hview & Hnames & Hlines).
  by exists data, area, df, v.
Qed.

Lemma chart_lines_witness :
  ∃ fig,
    charts (streamlit_app sample_fs default_ui) = [fig]
    ∧ trace_name <$> traces fig
      = ["0-24_pct"; "25-64_pct"; "65-79_pct"; "80+_pct"; "All ages_pct"].
Proof.
  destruct (streamlit_app sample_fs default_ui) as [els out] eqn:Hpage.
  vm_compute in Hpage. injection Hpage as <- <-.
  eexists. split; [reflexivity|].
  edestruct (chart_lines sample_fs default_ui)
    as (data & area & df & v & Hload & Hsheet & Hview & Hnames & _).
  - vm_compute. left.
  - rewrite Hnames. vm_compute in Hload. injection Hload as <-.
    vm_compute in Hsheet. injection Hsheet as <- <-.
    vm_compute in Hview. injection Hview as <-. reflexivity.
Defined.

(** X6. Every chart is titled with the selected area followed by the
    suffix of the view, its x-axis is titled Year, its y-axis carries the
    label of the view, and its legend is titled Age group as soon as there is
    a line. *)
Theorem chart_titles (fs : filesystem) (ui : sidebar) (fig : Figure) :
  fig ∈ charts (streamlit_app fs ui) →
  ∃ data area df,
    load_data fs (excel_file_path ui) = Ok data
    ∧ selected_sheet data ui = Ok (area, df)
    ∧ xaxis_title fig = "Year"
    ∧ legend_title fig = (if bool_decide (traces fig = []) then None else Some "Age group")
    ∧ (radio view_options (view_choice ui) = "Percent change" →
         title_text fig = area +:+ " – Percent Change"
         ∧ yaxis_title fig = "Percent change (%)")
    ∧ (radio view_options (view_choice ui) = "Counts" →
         title_text fig = area +:+ " – Population Counts"
         ∧ yaxis_title fig = "Population (persons)").
Proof.
  intros (data & Hload & _ & Hfig)%charts_streamlit_app.
  destruct (make_figure_Ok _ _ _ Hfig)
    as (area & df & v & plot_df & fig0 & years & lo & hi
        & Hsheet & Hview & Htable & Hline & Hyear & _ & _ & ->).
  exists data, area, df.
  destruct (finished_figure_fields (zero_line v) lo hi fig0)
    as (Htraces & -> & -> & -> & -> & _).
  rewrite Htraces. clear Htraces.
  apply px_line_inv in Hline as (xs & ys & _ & Hys & ->). simpl.
  apply mapM_length in Hys.
  destruct (select_view_fields _ _ _ Hview) as [Hpct Hother].
  split_and!; [done | done | | | |].
  - destruct (radio_view_options (view_choice ui)) as [Hmode|Hmode].
    + destruct (Hpct Hmode) as (_ & Hy & _). rewrite Hy. reflexivity.
    + assert (Hne : radio view_options (view_choice ui) ≠ "Percent change")
        by (rewrite Hmode; discriminate).
      destruct (Hother Hne) as (_ & Hy & _). rewrite Hy. reflexivity.
  - destruct (plot_columns v) as [|col cols], ys as [|s ys]; simpl in *; done.
  - intros Hmode. destruct (Hpct Hmode) as (_ & Hy & Ht). rewrite Hy, Ht.
    split; reflexivity.
  - intros Hmode.
    assert (Hne : radio view_options (view_choice ui) ≠ "Percent change")
      by (rewrite Hmode; discriminate).
    destruct (Hother Hne) as (_ & Hy & Ht). rewrite Hy, Ht. split; reflexivity.
Qed.

Lemma chart_titles_witness :
  ∃ fig,
    charts (streamlit_app sample_fs
              {| excel_file_path := "population_projection_se_london_icb.xlsx";
                 area_choice := 2; view_choice := 1 |}) = [fig]
    ∧ title_text fig = "SE London ICB – Population Counts".
Proof.
  destruct (streamlit_app sample_fs
              {| excel_file_path := "population_projection_se_london_icb.xlsx";
                 area_choice := 2; view_choice := 1 |}) as [els out] eqn:Hpage.
  vm_compute in Hpage. injection Hpage as <- <-.
  eexists. split; [reflexivity|].
  edestruct (chart_titles sample_fs
               {| excel_file_path := "population_projection_se_london_icb.xlsx";
                  area_choice := 2; view_choice := 1 |})
    as (data & area & df & Hload & Hsheet & _ & _ & _ & Hcounts).
  - vm_compute. left.
  - destruct Hcounts as [-> _]; [reflexivity|].
    vm_compute in Hload. injection Hload as <-.
    vm_compute in Hsheet. injection Hsheet as <- <-. reflexivity.
Defined.

(** ** How a run ends once the dataset is loaded *)






(** Years that are not numbers: a Year column of texts gives a chart whose
    range runs between the least and the greatest text, and one text among
    the numbers ends the run at [min()]. *)
Example scenario_irregular_years :
  (∃ fig,
     charts (streamlit_app sample_fs
               {| excel_file_path := "financial_years.xlsx"; area_choice := 0;
                  view_choice := 1 |}) = [fig]
     ∧ trace_name <$> traces fig = ["0-24"]
     ∧ xaxis_range fig = Some (CStr "2025/26", CStr "2026/27"))
  ∧ streamlit_app odd_fs
      {| excel_file_path := "mixed_years.xlsx"; area_choice := 0; view_choice := 1 |}
    = {| elements := [st_title page_title]; outcome := Crashed TypeError |}.
Proof. split; [eexists|]; vm_compute; done. Qed.

(** ** The plot columns *)

Lemma count_columns_not_pct col : col ∈ count_columns → endswith col "_pct" = false.
Proof.
  unfold count_columns. rewrite !elem_of_cons, elem_of_nil.
  intros [->|[->|[->|[->|[->|[]]]]]]; vm_compute; reflexivity.
Qed.

Lemma select_view_percent_Ok df v :
  select_view "Percent change" df = Ok v →
  ∃ names, columns df = LStr <$> names
           ∧ plot_columns v = filter (λ col, endswith col "_pct") names.
Proof.
  rewrite select_view_percent. intros H. inv_bind H. inv_ret H.
  destruct (pct_columns_Ok _ _ Ha) as [names Hnames]. exists names. split; [done|].
  rewrite Hnames, pct_columns_text in Ha. by simplify_eq.
Qed.

(** X8. The plot columns are computed in counts view, and in
    percent-change view when the labels are texts, and the Year column is
    never among them; the counts view plots at most five lines, never twice
    the same one, and none of them a percent-change column; the
    percent-change view plots none of the five count columns, and plots no
    column twice when the sheet's labels are pairwise distinct. *)
Theorem plot_columns_shape (df : DataFrame) (view_type : string) :
  (view_type ≠ "Percent change" ∨ (∃ names, text_labels df names) →
   ∃ v, select_view view_type df = Ok v)
  ∧ ∀ v, select_view view_type df = Ok v →
      ("Year" ∉ plot_columns v)
      ∧ (view_type ≠ "Percent change" →
           (length (plot_columns v) ≤ 5)%nat
           ∧ NoDup (plot_columns v)
           ∧ ∀ col, col ∈ plot_columns v → ¬ pct_suffixed col)
      ∧ (view_type = "Percent change" →
           (NoDup (columns df) → NoDup (plot_columns v))
           ∧ ∀ col, col ∈ plot_columns v → col ∉ count_columns).
Proof.
  split; [apply select_view_total|].
  intros v. destruct (decide (view_type = "Percent change")) as [->|Hview].
  - intros (names & Hnames & ->)%select_view_percent_Ok.
    split_and!; [|done|].
    + intros [Hend _]%list_elem_of_filter. by vm_compute in Hend.
    + intros _. split.
      * rewrite Hnames. intros Hnodup. apply NoDup_filter.
        apply (NoDup_fmap_1 LStr). done.
      * intros col [Hend _]%list_elem_of_filter Hcount.
        apply count_columns_not_pct in Hcount. by rewrite Hcount in Hend.
  - rewrite (select_view_other _ _ Hview). intros [= <-]. simpl.
    split_and!; [| |done].
    + intros [_ Hcount]%list_elem_of_filter. revert Hcount.
      apply (bool_decide_unpack _). vm_compute. reflexivity.
    + intros _. split_and!.
      * etrans; [apply length_filter|]. done.
      * apply NoDup_filter. apply (bool_decide_unpack _). vm_compute. reflexivity.
      * intros col [_ Hcount]%list_elem_of_filter Hpct%endswith_pct.
        apply count_columns_not_pct in Hcount. by rewrite Hcount in Hpct.
Qed.

Lemma plot_columns_shape_witness :
  ∃ v,
    select_view "Counts" shuffled_table = Ok v
    ∧ ("Year" ∉ plot_columns v)
    ∧ NoDup (plot_columns v).
Proof.
  destruct (plot_columns_shape shuffled_table "Counts") as (Htotal & Hshape).
  destruct Htotal as [v Hview]; [left; discriminate|].
  exists v. destruct (Hshape v Hview) as (Hyear & Hcounts & _).
  split_and!; [exact Hview | exact Hyear |].
  destruct Hcounts as (_ & Hnodup & _); [discriminate | exact Hnodup].
Defined.

(** ** The x-axis range, blanks included *)

Lemma series_extent_numeric (years : list cell) :
  dtype years = Number →
  match omap num_of years with
  | [] => series_min years = Ok CNaN ∧ series_max years = Ok CNaN
  | q :: qs =>
      series_min years = Ok (CNum (foldl Qmin q qs))
      ∧ series_max years = Ok (CNum (foldl Qmax q qs))
  end.
Proof.
  intros Hkind. unfold series_min, series_max, reduce_series. rewrite Hkind.
  by destruct (omap num_of years).
Qed.

(** X9. Blank Year cells are left out of the x-axis range: on a chart
    whose sheet has a numeric Year column the range runs from the least to
    the greatest of the numbers present, lower bound first; when every Year
    cell is blank both bounds are blank. *)
Theorem xaxis_range_skips_blank_years (fs : filesystem) (ui : sidebar) (fig : Figure) :
  fig ∈ charts (streamlit_app fs ui) →
  ∃ data area df years,
    load_data fs (excel_file_path ui) = Ok data
    ∧ selected_sheet data ui = Ok (area, df)
    ∧ getitem df "Year" = Ok years
    ∧ (dtype years = Number →
       match omap num_of years with
       | [] => xaxis_range fig = Some (CNaN, CNaN)
       | q :: qs =>
           ∃ a b,
             xaxis_range fig = Some (CNum a, CNum b)
             ∧ a ∈ q :: qs ∧ b ∈ q :: qs ∧ (a <= b)%Q
             ∧ ∀ x, x ∈ q :: qs → (a <= x <= b)%Q
       end).
Proof.
  intros (data & Hload & _ & Hfig)%charts_streamlit_app.
  destruct (make_figure_Ok _ _ _ Hfig)
    as (area & df & v & plot_df & fig0 & years & lo & hi
        & Hsheet & _ & Htable & _ & Hyear & Hlo & Hhi & ->).
  destruct (getitem_list_year _ _ _ Htable) as (_ & Hsame & _).
  exists data, area, df, years. split_and!; [done | done | by rewrite <- Hsame |].
  intros Hkind. pose proof (series_extent_numeric years Hkind) as Hextent.
  destruct (finished_figure_fields (zero_line v) lo hi fig0)
    as (_ & _ & _ & _ & _ & Hrange & _).
  rewrite Hrange. clear Hrange.
  destruct (omap num_of years) as [|q qs].
  - destruct Hextent as [Hmin Hmax]. congruence.
  - destruct Hextent as [Hmin Hmax].
    destruct (foldl_min_least q qs) as [Ha Hleast].
    destruct (foldl_max_greatest q qs) as [Hb Hgreatest].
    exists (foldl Qmin q qs), (foldl Qmax q qs).
    split_and!; [congruence | done | done | | ].
    + eapply Qle_trans; [apply Hleast | apply Hgreatest]; left.
    + intros x Hx. split; [by apply Hleast | by apply Hgreatest].
Qed.

Lemma xaxis_range_skips_blank_years_witness :
  ∃ fig,
    charts (streamlit_app odd_fs
              {| excel_file_path := "blank_years.xlsx"; area_choice := 0; view_choice := 1 |})
    = [fig]
    ∧ xaxis_range fig = Some (CNum 2025, CNum 2030).
Proof.
  destruct (streamlit_app odd_fs
              {| excel_file_path := "blank_years.xlsx"; area_choice := 0; view_choice := 1 |})
    as [els out] eqn:Hpage.
  vm_compute in Hpage. injection Hpage as <- <-.
  eexists. split; [reflexivity|].
  edestruct (xaxis_range_skips_blank_years odd_fs
               {| excel_file_path := "blank_years.xlsx"; area_choice := 0; view_choice := 1 |})
    as (data & area & df & years & Hload & Hsheet & Hyears & Hrange).
  - vm_compute. left.
  - vm_compute in Hload. injection Hload as <-.
    vm_compute in Hsheet. injection Hsheet as <- <-.
    vm_compute in Hyears. injection Hyears as <-.
    destruct Hrange as (a & b & Hrange & _); [vm_compute; reflexivity|].
    rewrite Hrange. vm_compute in Hrange. injection Hrange as <- <-. reflexivity.
Defined.

(** ** Switching the view *)

Lemma selected_sheet_same_area (data : dict DataFrame) ui ui' :
  area_choice ui = area_choice ui' → selected_sheet data ui = selected_sheet data ui'.
Proof. unfold selected_sheet. by intros ->. Qed.

(** X10. Switching the view changes neither the years nor the area: two
    charts drawn from the same file for the same position in the area list,
    whatever the two views, come from the same selected sheet, have the same
    x-axis range, all their lines run over the same Year values, and each is
    titled with the name of that sheet followed by the suffix of its own
    view. *)
Theorem view_switch_keeps_years (fs : filesystem) (ui ui' : sidebar) (fig fig' : Figure) :
  excel_file_path ui = excel_file_path ui' →
  area_choice ui = area_choice ui' →
  fig ∈ charts (streamlit_app fs ui) →
  fig' ∈ charts (streamlit_app fs ui') →
  ∃ data area df v v',
    load_data fs (excel_file_path ui) = Ok data
    ∧ selected_sheet data ui = Ok (area, df)
    ∧ selected_sheet data ui' = Ok (area, df)
    ∧ select_view (radio view_options (view_choice ui)) df = Ok v
    ∧ select_view (radio view_options (view_choice ui')) df = Ok v'
    ∧ xaxis_range fig = xaxis_range fig'
    ∧ (∀ t t', t ∈ traces fig → t' ∈ traces fig' → trace_x t = trace_x t')
    ∧ title_text fig = area +:+ title_suffix v
    ∧ title_text fig' = area +:+ title_suffix v'.
Proof.
  intros Hpath Harea (data & Hload & Hdata & Hfig)%charts_streamlit_app
         (data' & Hload' & _ & Hfig')%charts_streamlit_app.
  rewrite <- Hpath in Hload'. assert (data' = data) as -> by congruence.
  destruct (selected_sheet_total data ui Hdata) as (area & df & Hsheet).
  pose proof Hsheet as Hsheet'. rewrite (selected_sheet_same_area data ui ui' Harea) in Hsheet'.
  destruct (make_figure_lines _ _ _ _ _ Hfig Hsheet) as (v0 & _ & _ & Hlines).
  destruct (make_figure_lines _ _ _ _ _ Hfig' Hsheet') as (v0' & _ & _ & Hlines').
  destruct (make_figure_Ok _ _ _ Hfig)
    as (area1 & df1 & v & plot_df & fig0 & years & lo & hi
        & Hs1 & Hview & Htable & Hline & Hyear & Hlo & Hhi & ->).
  destruct (make_figure_Ok _ _ _ Hfig')
    as (area2 & df2 & v' & plot_df' & fig0' & years' & lo' & hi'
        & Hs2 & Hview' & Htable' & Hline' & Hyear' & Hlo' & Hhi' & ->).
  assert (area1 = area ∧ df1 = df) as [-> ->] by (split; congruence).
  assert (area2 = area ∧ df2 = df) as [-> ->] by (split; congruence).
  destruct (getitem_list_year _ _ _ Htable) as (_ & Hsame & _).
  destruct (getitem_list_year _ _ _ Htable') as (_ & Hsame' & _).
  assert (years' = years) as -> by congruence.
  assert (lo' = lo) as -> by congruence.
  assert (hi' = hi) as -> by congruence.
  exists data, area, df, v, v'.
  destruct (finished_figure_fields (zero_line v) lo hi fig0)
    as (_ & Htitle & _ & _ & _ & Hrange & _).
  destruct (finished_figure_fields (zero_line v') lo hi fig0')
    as (_ & Htitle' & _ & _ & _ & Hrange' & _).
  split_and!; [done | done | done | done | done | | | |].
  - by rewrite Hrange, Hrange'.
  - intros t t' Ht Ht'.
    destruct (Hlines t Ht) as (Hx & _). destruct (Hlines' t' Ht') as (Hx' & _). congruence.
  - rewrite Htitle. by apply px_line_inv in Hline as (? & ? & _ & _ & ->).
  - rewrite Htitle'. by apply px_line_inv in Hline' as (? & ? & _ & _ & ->).
Qed.

Lemma view_switch_keeps_years_witness :
  ∃ pct counts,
    charts (streamlit_app sample_fs default_ui) = [pct]
    ∧ charts (streamlit_app sample_fs
                {| excel_file_path := "population_projection_se_london_icb.xlsx";
                   area_choice := 0; view_choice := 1 |}) = [counts]
    ∧ xaxis_range pct = xaxis_range counts
    ∧ title_text pct = "Bromley – Percent Change"
    ∧ title_text counts = "Bromley – Population Counts".
Proof.
  destruct (streamlit_app sample_fs default_ui) as [els out] eqn:Hpage.
  destruct (streamlit_app sample_fs
              {| excel_file_path := "population_projection_se_london_icb.xlsx";
                 area_choice := 0; view_choice := 1 |}) as [els' out'] eqn:Hpage'.
  vm_compute in Hpage. injection Hpage as <- <-.
  vm_compute in Hpage'. injection Hpage' as <- <-.
  do 2 eexists. split; [reflexivity|]. split; [reflexivity|].
  edestruct (view_switch_keeps_years sample_fs default_ui
               {| excel_file_path := "population_projection_se_london_icb.xlsx";
                  area_choice := 0; view_choice := 1 |})
    as (data & area & df & v & v' & Hload & Hsheet & _ & Hview & Hview'
        & Hrange & _ & Htitle & Htitle').
  - reflexivity.
  - reflexivity.
  - vm_compute. left.
  - vm_compute. left.
  - vm_compute in Hload. injection Hload as <-.
    vm_compute in Hsheet. injection Hsheet as <- <-.
    vm_compute in Hview. injection Hview as <-.
    vm_compute in Hview'. injection Hview' as <-.
    split_and!; [exact Hrange | exact Htitle | exact Htitle'].
Defined.

(** ** Reruns against the loader's cache *)

Lemma streamlit_app_show_page fs ui :
  streamlit_app fs ui = show_page (load_data fs (excel_file_path ui)) ui.
Proof. reflexivity. Qed.

Lemma streamlit_run_hit (cache : gmap string (dict DataFrame)) fs ui data :
  cache !! excel_file_path ui = Some data →
  streamlit_run cache fs ui = (show_page (Ok data) ui, cache).
Proof. intros Hhit. unfold streamlit_run, load_data_cached. by rewrite Hhit. Qed.

Lemma streamlit_run_miss (cache : gmap string (dict DataFrame)) fs ui :
  cache !! excel_file_path ui = None →
  streamlit_run cache fs ui
  = (streamlit_app fs ui,
     match load_data fs (excel_file_path ui) with
     | Ok data => <[excel_file_path ui := data]> cache
     | Raise _ => cache
     end).
Proof.
  intros Hmiss. rewrite streamlit_app_show_page.
  unfold streamlit_run, load_data_cached. rewrite Hmiss.
  by destruct (load_data fs (excel_file_path ui)).
Qed.

Lemma streamlit_run_coherent (cache : gmap string (dict DataFrame)) fs ui :
  coherent cache fs →
  (streamlit_run cache fs ui).1 = streamlit_app fs ui
  ∧ coherent (streamlit_run cache fs ui).2 fs.
Proof.
  intros Hcoh. destruct (cache !! excel_file_path ui) as [data|] eqn:Hlookup.
  - rewrite (streamlit_run_hit _ _ _ _ Hlookup). simpl. split; [|done].
    rewrite streamlit_app_show_page. by rewrite (Hcoh _ _ Hlookup).
  - rewrite (streamlit_run_miss _ _ _ Hlookup). simpl. split; [done|].
    destruct (load_data fs (excel_file_path ui)) as [data|e] eqn:Hload; [|done].
    intros path data'. rewrite lookup_insert.
    destruct (decide (excel_file_path ui = path)) as [<-|Hne]; [|apply Hcoh].
    intros [= <-]. done.
Qed.

(** X11. While the files do not change the cache is invisible: in a
    session that starts from a cache agreeing with the files (the empty one
    does), every rerun shows exactly the page an uncached run would show for
    the same sidebar, however many interactions there are. *)
Theorem cached_session_agrees (cache : gmap string (dict DataFrame))
    (fs : filesystem) (uis : list sidebar) :
  coherent cache fs →
  session cache ((λ ui, (fs, ui)) <$> uis) = streamlit_app fs <$> uis.
Proof.
  revert cache. induction uis as [|ui uis IH]; intros cache Hcoh; [done|].
  destruct (streamlit_run_coherent cache fs ui Hcoh) as [Hpage Hcoh'].
  cbn [fmap list_fmap session].
  destruct (streamlit_run cache fs ui) as [p cache'] eqn:Hrun. simpl in *.
  f_equal; [done|]. by apply IH.
Qed.

Lemma cached_session_agrees_witness :
  session ∅ [(sample_fs, default_ui);
             (sample_fs, {| excel_file_path := "population_projection_se_london_icb.xlsx";
                            area_choice := 1; view_choice := 1 |})]
  = [streamlit_app sample_fs default_ui;
     streamlit_app sample_fs
       {| excel_file_path := "population_projection_se_london_icb.xlsx";
          area_choice := 1; view_choice := 1 |}].
Proof.
  apply (cached_session_agrees ∅ sample_fs
           [default_ui;
            {| excel_file_path := "population_projection_se_london_icb.xlsx";
               area_choice := 1; view_choice := 1 |}]).
  intros path data Hlookup. rewrite lookup_empty in Hlookup. discriminate Hlookup.
Defined.

(** X12. A workbook is read once per path: after a run that loaded it, a
    rerun with the same path builds its page from the dataset loaded then,
    whatever has become of the file since (changed, emptied or deleted), and
    leaves the cache as it is. *)
Theorem cached_data_outlives_file (cache : gmap string (dict DataFrame))
    (fs fs' : filesystem) (ui ui' : sidebar) (data : dict DataFrame) :
  cache !! excel_file_path ui = None →
  load_data fs (excel_file_path ui) = Ok data →
  excel_file_path ui' = excel_file_path ui →
  session cache [(fs, ui); (fs', ui')]
  = [streamlit_app fs ui; show_page (Ok data) ui']
  ∧ (streamlit_run (streamlit_run cache fs ui).2 fs' ui').2 = (streamlit_run cache fs ui).2.
Proof.
  intros Hmiss Hload Hpath. cbn [session].
  rewrite (streamlit_run_miss _ _ _ Hmiss), Hload. cbn [snd].
  assert (Hhit : <[excel_file_path ui := data]> cache !! excel_file_path ui' = Some data)
    by (rewrite Hpath; apply lookup_insert_eq).
  rewrite (streamlit_run_hit _ fs' _ _ Hhit). done.
Qed.

Lemma cached_data_outlives_file_witness :
  session ∅ [(sample_fs, default_ui);
             (no_files, {| excel_file_path := "population_projection_se_london_icb.xlsx";
                           area_choice := 1; view_choice := 1 |})]
  = [streamlit_app sample_fs default_ui;
     show_page
       (Ok [("Bromley", sample_table); ("Lewisham", sample_table);
            ("SE London ICB", sample_table)])
       {| excel_file_path := "population_projection_se_london_icb.xlsx";
          area_choice := 1; view_choice := 1 |}].
Proof.
  apply (cached_data_outlives_file ∅ sample_fs no_files default_ui
           {| excel_file_path := "population_projection_se_london_icb.xlsx";
              area_choice := 1; view_choice := 1 |}).
  - apply lookup_empty.
  - vm_compute. reflexivity.
  - reflexivity.
Defined.

(** X13. A failed load is not remembered: a run whose load raised leaves
    the cache untouched, so the next run with that path reads the file again
    and shows what is there by then. *)
Theorem failed_load_is_retried (cache : gmap string (dict DataFrame))
    (fs fs' : filesystem) (ui ui' : sidebar) (e : exn) :
  cache !! excel_file_path ui = None →
  load_data fs (excel_file_path ui) = Raise e →
  excel_file_path ui' = excel_file_path ui →
  (streamlit_run cache fs ui).2 = cache
  ∧ session cache [(fs, ui); (fs', ui')] = [streamlit_app fs ui; streamlit_app fs' ui'].
Proof.
  intros Hmiss Hload Hpath.
  assert (Hrun : streamlit_run cache fs ui = (streamlit_app fs ui, cache))
    by (by rewrite (streamlit_run_miss _ _ _ Hmiss), Hload).
  split; [by rewrite Hrun|]. cbn [session]. rewrite Hrun.
  rewrite <- Hpath in Hmiss. rewrite (streamlit_run_miss _ fs' _ Hmiss). done.
Qed.

Lemma failed_load_is_retried_witness :
  session ∅ [(no_files, default_ui); (sample_fs, default_ui)]
  = [streamlit_app no_files default_ui; streamlit_app sample_fs default_ui].
Proof.
  apply (failed_load_is_retried ∅ no_files sample_fs default_ui default_ui
           (OSError "[Errno 2] No such file or directory: 'population_projection_se_london_icb.xlsx'")).
  - apply lookup_empty.
  - vm_compute. reflexivity.
  - reflexivity.
Defined.

(** X14. A run never drops or replaces an entry of the cache, and the only
    path it can add is the one in the sidebar, bound to what was loaded from
    it. *)
Theorem cache_only_grows (cache : gmap string (dict DataFrame))
    (fs : filesystem) (ui : sidebar) (path : string) (data : dict DataFrame) :
  (cache !! path = Some data → (streamlit_run cache fs ui).2 !! path = Some data)
  ∧ ((streamlit_run cache fs ui).2 !! path = Some data →
     cache !! path = Some data
     ∨ (path = excel_file_path ui ∧ load_data fs path = Ok data)).
Proof.
  destruct (cache !! excel_file_path ui) as [data'|] eqn:Hlookup.
  - rewrite (streamlit_run_hit _ _ _ _ Hlookup). simpl. split; [done | by left].
  - rewrite (streamlit_run_miss _ _ _ Hlookup). simpl.
    destruct (load_data fs (excel_file_path ui)) as [data'|e] eqn:Hload;
      [|split; [done | by left]].
    rewrite lookup_insert.
    destruct (decide (excel_file_path ui = path)) as [<-|Hne]; [|split; [done | by left]].
    split; [congruence|]. intros [= <-]. by right.
Qed.

Lemma cache_only_grows_witness :
  (streamlit_run {[ "notes.xlsx" := [] ]} sample_fs default_ui).2 !! "notes.xlsx" = Some [].
Proof.
  apply (cache_only_grows {[ "notes.xlsx" := [] ]} sample_fs default_ui "notes.xlsx" []).
  apply lookup_singleton_eq.
Defined.
